(** * Blob metadata API: a shallow embedding of [web/app.py]

    The Flask application is a thin layer over the Azure storage SDK.  Its
    own logic is string and environment branching (emulator / production
    classification, base-URL derivation), Python truthiness chains
    (content-type resolution) and [try]/[except] blocks mapping exceptions
    to HTTP statuses.  Those are embedded here; the SDK, the clock, the
    [mimetypes] table and the builtins [str], [repr] and the Unicode part
    of [int] are taken as parameters (record [Sdk]), and so is what the
    interpreter decides about signals (record [Runtime]).

    Strings are Rocq [string]s, read as the UTF-8 bytes of the Python [str];
    [lower] acts on ASCII letters only.  Times are integers, microseconds
    since the epoch; the overflow of [datetime] arithmetic and failures in
    the middle of a streamed download are outside the model. *)

From Stdlib Require Import ZArith Ascii.
From stdpp Require Import base option list strings gmap pretty.

Local Open Scope Z_scope.

(** ** Python string primitives used by the application *)

Module PyStr.

Definition ascii_lower (c : ascii) : ascii :=
  let n := nat_of_ascii c in
  if ((65 <=? n) && (n <=? 90))%nat then ascii_of_nat (n + 32) else c.

(** [s.lower()] *)
Fixpoint lower (s : string) : string :=
  match s with
  | EmptyString => EmptyString
  | String c r => String (ascii_lower c) (lower r)
  end.

(** [s.startswith(p)] *)
Fixpoint startswith (s p : string) {struct p} : bool :=
  match p, s with
  | EmptyString, _ => true
  | String _ _, EmptyString => false
  | String a p', String b s' => if decide (a = b) then startswith s' p' else false
  end.

(** [needle in s] *)
Fixpoint contains (needle s : string) : bool :=
  startswith s needle ||
  match s with
  | EmptyString => false
  | String _ r => contains needle r
  end.

(** [s.split(sep)] for a one-character separator: always at least one
    field, empty fields kept. *)
Fixpoint split (sep : ascii) (s : string) : list string :=
  match s with
  | EmptyString => [EmptyString]
  | String c r =>
      if decide (c = sep) then EmptyString :: split sep r
      else match split sep r with
           | [] => [String c EmptyString]
           | f :: fs => String c f :: fs
           end
  end.

(** [s.split(sep, 1)]: cut at the first separator, if there is one. *)
Fixpoint split1 (sep : ascii) (s : string) : string * option string :=
  match s with
  | EmptyString => (EmptyString, None)
  | String c r =>
      if decide (c = sep) then (EmptyString, Some r)
      else let '(a, b) := split1 sep r in (String c a, b)
  end.

(** [s.rstrip(c)] for a one-character set. *)
Fixpoint rstrip (c : ascii) (s : string) : string :=
  match s with
  | EmptyString => EmptyString
  | String a r =>
      match rstrip c r with
      | EmptyString => if decide (a = c) then EmptyString else String a EmptyString
      | r' => String a r'
      end
  end.

Fixpoint drop (n : nat) (s : string) : string :=
  match n, s with
  | O, _ => s
  | S _, EmptyString => EmptyString
  | S n', String _ r => drop n' r
  end.

(** [s.replace(old, new, 1)] for a non-empty [old]. *)
Fixpoint replace1 (old new s : string) : string :=
  if startswith s old then new +:+ drop (String.length old) s
  else match s with
       | EmptyString => EmptyString
       | String c r => String c (replace1 old new r)
       end.

(** Truthiness of a [str]. *)
Definition nonempty (s : string) : bool :=
  match s with EmptyString => false | _ => true end.

End PyStr.

(** ** Python values that may be [None] *)

(** [bool(x)] for [x : str | None]. *)
Definition truthy (x : option string) : bool :=
  match x with Some s => PyStr.nonempty s | None => false end.

(** [x or y] *)
Definition por (x y : option string) : option string :=
  if truthy x then x else y.

(** [x or "literal"], whose value is always a [str]. *)
Definition por_str (x : option string) (d : string) : string :=
  match x with
  | Some s => if PyStr.nonempty s then s else d
  | None => d
  end.

(** ** Process environment *)

(** [os.environ] *)
Abbreviation Env := (gmap string string).

(** [os.getenv(k)] *)
Definition getenv (env : Env) (k : string) : option string := env !! k.

(** [os.getenv(k, d)] *)
Definition getenv_default (env : Env) (k d : string) : string :=
  default d (env !! k).

(** ** Connection strings *)

(** [dict(p.split("=", 1) for p in conn.split(";") if "=" in p)]: a later
    duplicate key replaces an earlier one.  Every kept part contains ["="],
    so each split has two fields and the comprehension cannot raise. *)
Definition _parse_conn_str (conn : string) : gmap string string :=
  foldl (fun d p =>
           match PyStr.split1 "=" p with
           | (k, Some v) => <[k := v]> d
           | (_, None) => d
           end)
        ∅ (PyStr.split ";" conn).

Definition is_azurite (env : Env) : bool :=
  let cs := getenv_default env "AZURE_STORAGE_CONNECTION_STRING" "" in
  if PyStr.startswith cs "UseDevelopmentStorage=true" then true
  else
    let parts := _parse_conn_str cs in
    let acct := PyStr.lower (por_str (por (parts !! "AccountName") (parts !! "accountname")) "") in
    let blob_ep := PyStr.lower (por_str (por (parts !! "BlobEndpoint") (parts !! "blobendpoint")) "") in
    bool_decide (acct = "devstoreaccount1")
    || PyStr.contains "azurite" blob_ep
    || PyStr.contains "127.0.0.1:10000" blob_ep.

(** The truthiness of the [is_azure_production] chain of [or]s. *)
Definition is_azure_production (env : Env) : bool :=
  truthy (getenv env "CONTAINER_APP_NAME")
  || truthy (getenv env "CONTAINER_APP_ENV_DNS_SUFFIX")
  || truthy (getenv env "WEBSITE_SITE_NAME")
  || truthy (getenv env "WEBSITE_INSTANCE_ID")
  || truthy (getenv env "APPSETTING_WEBSITE_SITE_NAME")
  || PyStr.contains "blob.core.windows.net"
       (PyStr.lower (por_str (Some (getenv_default env "AZURE_STORAGE_CONNECTION_STRING" "")) "")).

Definition blob_base_url (env : Env) (account_name : string) : string :=
  let public_base := getenv env "PUBLIC_BLOB_BASE_URL" in
  if truthy public_base then
    let public_base := default "" public_base in
    if negb (PyStr.startswith public_base "http://" || PyStr.startswith public_base "https://") then
      "https://" +:+ PyStr.rstrip "/" public_base +:+ "/" +:+ account_name
    else if PyStr.startswith public_base "http://"
            && negb (PyStr.contains "localhost" public_base)
            && negb (PyStr.contains "127.0.0.1" public_base) then
      PyStr.rstrip "/" (PyStr.replace1 "http://" "https://" public_base) +:+ "/" +:+ account_name
    else
      PyStr.rstrip "/" public_base +:+ "/" +:+ account_name
  else
    let is_local_azurite := is_azurite env in
    if is_local_azurite && negb (is_azure_production env) then
      let host_port := getenv_default env "AZURITE_BLOB_HOST_PORT" "10000" in
      "http://127.0.0.1:" +:+ host_port +:+ "/" +:+ account_name
    else
      "https://" +:+ account_name +:+ ".blob.core.windows.net".

(** [urllib.parse.quote(s)] with the default [safe="/"]: unreserved
    characters and ["/"] are kept, every other byte becomes [%XX]. *)
Module UrlQuote.

Definition hex_digit (n : nat) : ascii :=
  ascii_of_nat (if (n <? 10)%nat then 48 + n else 55 + n).

Definition is_safe (c : ascii) : bool :=
  let n := nat_of_ascii c in
  ((65 <=? n) && (n <=? 90) || (97 <=? n) && (n <=? 122) || (48 <=? n) && (n <=? 57))%nat
  || bool_decide (c ∈ ["_"; "."; "-"; "~"; "/"]%char).

Fixpoint quote (s : string) : string :=
  match s with
  | EmptyString => EmptyString
  | String c r =>
      if is_safe c then String c (quote r)
      else let n := nat_of_ascii c in
           String "%" (String (hex_digit (n / 16)) (String (hex_digit (n mod 16)) (quote r)))
  end.

End UrlQuote.

(** [int(s)] on ASCII text: surrounding ASCII whitespace, an optional sign,
    digits with single underscores between them; anything else is a
    [ValueError] ([None]).  Text with other characters goes through
    [py_int] below, which first maps its Unicode digits and spaces to
    ASCII.  The interpreter's limit on the number of digits (4300 by
    default) is outside the model. *)
Module PyInt.

Fixpoint is_ascii (s : string) : bool :=
  match s with
  | EmptyString => true
  | String c r => (nat_of_ascii c <? 128)%nat && is_ascii r
  end.

Definition digit (c : ascii) : option Z :=
  let n := nat_of_ascii c in
  if ((48 <=? n) && (n <=? 57))%nat then Some (Z.of_nat (n - 48)) else None.

(** The rest of a literal after a digit, [acc] being the value so far. *)
Fixpoint digits (acc : Z) (s : string) : option Z :=
  match s with
  | EmptyString => Some acc
  | String c r =>
      match digit c with
      | Some d => digits (10 * acc + d) r
      | None =>
          if decide (c = "_"%char) then
            match r with
            | String c2 r2 =>
                match digit c2 with
                | Some d => digits (10 * acc + d) r2
                | None => None
                end
            | EmptyString => None
            end
          else None
      end
  end.

Definition unsigned (s : string) : option Z :=
  match s with
  | String c r => match digit c with Some d => digits d r | None => None end
  | EmptyString => None
  end.

Fixpoint lstrip (s : string) : string :=
  match s with
  | String c r => if Ascii.is_space c then lstrip r else s
  | EmptyString => EmptyString
  end.

Fixpoint rstrip (s : string) : string :=
  match s with
  | EmptyString => EmptyString
  | String a r =>
      match rstrip r with
      | EmptyString => if Ascii.is_space a then EmptyString else String a EmptyString
      | r' => String a r'
      end
  end.

Definition int (s : string) : option Z :=
  match rstrip (lstrip s) with
  | String "-" r => Z.opp <$> unsigned r
  | String "+" r => unsigned r
  | t => unsigned t
  end.

End PyInt.


(** ** Exceptions and effects *)

(** A raised Python exception: its class name and [str(e)]. *)
Record PyExn := mkExn { exn_class : string; exn_str : string }.

Inductive Result (A : Type) : Type :=
| Ok (a : A)
| Raise (e : PyExn).
Arguments Ok {A} a.
Arguments Raise {A} e.

(** Computations over the remote storage service: the state [W] is the
    world outside the process (containers, blobs, the clock and whatever
    other clients do to them), threaded through every SDK call. *)
Definition M (W A : Type) : Type := W -> Result A * W.

Definition ret {W A} (a : A) : M W A := fun w => (Ok a, w).
Definition raise {W A} (e : PyExn) : M W A := fun w => (Raise e, w).
Definition lift {W A} (r : Result A) : M W A := fun w => (r, w).
Definition gets {W A} (f : W -> A) : M W A := fun w => (Ok (f w), w).

Definition bind {W A B} (m : M W A) (k : A -> M W B) : M W B :=
  fun w => match m w with
           | (Ok a, w') => k a w'
           | (Raise e, w') => (Raise e, w')
           end.

(** [try: body  except Exception as e: handler(e)] *)
Definition try_except {W A} (body : M W A) (handler : PyExn -> M W A) : M W A :=
  fun w => match body w with
           | (Ok a, w') => (Ok a, w')
           | (Raise e, w') => handler e w'
           end.

Notation "'let*' x ':=' m 'in' k" := (bind m (fun x => k))
  (at level 10, x name, m at level 100, k at level 200).

(** ** Data mirrored from the storage SDK *)

Record ContentSettings := mkContentSettings {
  content_type : option string;
  content_encoding : option string;
  content_language : option string;
  cache_control : option string
}.

(** [BlobProperties]; the timestamps stand for their [isoformat()]
    rendering, [None] fields for attributes that are [None]. *)
Record BlobProperties := mkBlobProperties {
  name : string;
  size : option Z;
  last_modified : option string;
  etag : option string;
  metadata : option (gmap string string);
  content_settings : option ContentSettings;
  blob_type : option string;
  creation_time : option string
}.

Record BlobServiceClient := mkService { account_name : string }.
Record ContainerClient := mkContainerClient { cc_service : BlobServiceClient; cc_container : string }.
Record BlobClient := mkBlobClient { bc_service : BlobServiceClient; bc_container : string; bc_blob : string }.

Definition get_container_client (svc : BlobServiceClient) (container : string) : ContainerClient :=
  mkContainerClient svc container.
Definition get_blob_client (svc : BlobServiceClient) (container blob : string) : BlobClient :=
  mkBlobClient svc container blob.

(** [BlobSasPermissions(...)]: every flag is [False] unless given. *)
Record BlobSasPermissions := mkPerm {
  perm_read : bool; perm_add : bool; perm_create : bool; perm_write : bool;
  perm_delete : bool; perm_delete_previous_version : bool;
  perm_permanent_delete : bool; perm_list : bool; perm_tag : bool;
  perm_move : bool; perm_execute : bool; perm_set_immutability_policy : bool
}.

Definition no_permission : BlobSasPermissions :=
  mkPerm false false false false false false false false false false false false.

(** [BlobSasPermissions(read=True)] *)
Definition read_permission : BlobSasPermissions :=
  mkPerm true false false false false false false false false false false false.

(** The keyword arguments of a [generate_blob_sas] call; times are
    microseconds since the epoch, UTC. *)
Record SasArgs := mkSasArgs {
  sas_account_name : string;
  sas_container_name : string;
  sas_blob_name : string;
  sas_account_key : option string;
  sas_permission : BlobSasPermissions;
  sas_expiry : Z
}.

(** [timedelta(minutes=m)] in microseconds. *)
Definition timedelta_minutes (m : Z) : Z := m * 60000000.

(** ** JSON and HTTP *)

#[local] Unset Elimination Schemes.
Inductive json :=
| JNull
| JBool (b : bool)
| JInt (z : Z)
| JFloat (lexeme : string)
| JStr (s : string)
| JArr (items : list json)
| JObj (members : list (string * json)).
#[local] Set Elimination Schemes.

Definition json_opt_str (x : option string) : json :=
  match x with Some s => JStr s | None => JNull end.

Definition json_dict (d : gmap string string) : json :=
  JObj (prod_map id JStr <$> map_to_list d).

(** The Python type name of a parsed JSON value that is not a [dict]. *)
Definition py_type_name (j : json) : string :=
  match j with
  | JNull => "NoneType" | JBool _ => "bool" | JInt _ => "int"
  | JFloat _ => "float" | JStr _ => "str" | JArr _ => "list" | JObj _ => "dict"
  end.

(** [d.get(k)] on a parsed JSON object; [json.loads] keeps the last of
    duplicated keys. *)
Fixpoint members_get (k : string) (ms : list (string * json)) : option json :=
  match ms with
  | [] => None
  | (k', v) :: r =>
      match members_get k r with
      | Some v' => Some v'
      | None => if decide (k' = k) then Some v else None
      end
  end.

Inductive Body :=
| JsonBody (j : json)
| StreamBody (chunks : list string).

Record Response := mkResponse {
  status : Z;
  mimetype : string;
  headers : list (string * string);
  body : Body
}.

(** [jsonify(j)] and [jsonify(j), code] *)
Definition jsonify (j : json) : Response := mkResponse 200 "application/json" [] (JsonBody j).
Definition jsonify_status (j : json) (code : Z) : Response :=
  mkResponse code "application/json" [] (JsonBody j).

(** The error envelope [{"error": str(e)}]. *)
Definition error_envelope (msg : string) : json := JObj [("error", JStr msg)].

(** [response.headers[k] = v]: header names compare case-insensitively; an
    existing entry is replaced in place, further ones are dropped. *)
Definition same_header (k k' : string) : bool :=
  bool_decide (PyStr.lower k = PyStr.lower k').

Fixpoint set_header (k v : string) (hs : list (string * string)) : list (string * string) :=
  match hs with
  | [] => [(k, v)]
  | (k', v') :: r =>
      if same_header k k' then (k, v) :: filter (fun kv => same_header k kv.1 = false) r
      else (k', v') :: set_header k v r
  end.

Fixpoint get_header (k : string) (hs : list (string * string)) : option string :=
  match hs with
  | [] => None
  | (k', v) :: r => if same_header k k' then Some v else get_header k r
  end.

Definition with_header (k v : string) (r : Response) : Response :=
  mkResponse (status r) (mimetype r) (set_header k v (headers r)) (body r).

(** The [after_request] hook. *)
Definition add_security_headers (response : Response) : Response :=
  let csp_policy :=
    "default-src 'self'; " +:+
    "script-src 'self' 'unsafe-inline' 'unsafe-eval'; " +:+
    "style-src 'self' 'unsafe-inline'; " +:+
    "img-src 'self' data: https:; " +:+
    "font-src 'self' data:; " +:+
    "connect-src 'self' https:; " +:+
    "frame-ancestors 'none'; " +:+
    "upgrade-insecure-requests;" in
  with_header "Strict-Transport-Security" "max-age=31536000; includeSubDomains"
    (with_header "X-XSS-Protection" "1; mode=block"
      (with_header "X-Frame-Options" "DENY"
        (with_header "X-Content-Type-Options" "nosniff"
          (with_header "Content-Security-Policy" csp_policy response)))).

(** An uploaded multipart part ([werkzeug.FileStorage]). *)
Record FileStorage := mkFile {
  filename : option string;
  file_content_type : option string;
  file_data : string
}.

(** ** The world outside: SDK, clock and library tables *)

(** What the application calls but does not define.  Network calls act on
    the world [W] and may raise; [from_connection_string] and
    [generate_blob_sas] only compute; [utcnow] reads the clock
    ([datetime.now(timezone.utc)], in microseconds); [guess_type] is the
    first component of [mimetypes.guess_type]; [py_str] is [str] on a
    JSON value, [py_repr] is [repr] on a [str], and [py_decimal_to_ascii]
    is what [int] does to text that is not ASCII before parsing it: Unicode
    decimal digits and spaces become ASCII ones. *)
Record Sdk (W : Type) := mkSdk {
  from_connection_string : option string -> Result BlobServiceClient;
  get_container_properties : ContainerClient -> M W unit;
  create_container : ContainerClient -> M W unit;
  set_container_access_policy : ContainerClient -> string -> M W unit;
  list_blobs : ContainerClient -> list string -> M W (list BlobProperties);
  get_blob_properties : BlobClient -> M W BlobProperties;
  upload_blob : BlobClient -> FileStorage -> bool -> ContentSettings -> M W unit;
  set_blob_metadata : BlobClient -> gmap string string -> M W unit;
  delete_blob : BlobClient -> M W unit;
  download_blob : BlobClient -> M W (list string);
  generate_blob_sas : SasArgs -> Result string;
  utcnow : W -> Z;
  guess_type : string -> option string;
  py_str : json -> string;
  py_repr : string -> string;
  py_decimal_to_ascii : string -> string
}.
Arguments from_connection_string {W} _ _.
Arguments get_container_properties {W} _ _ _.
Arguments create_container {W} _ _ _.
Arguments set_container_access_policy {W} _ _ _ _.
Arguments list_blobs {W} _ _ _ _.
Arguments get_blob_properties {W} _ _ _.
Arguments upload_blob {W} _ _ _ _ _ _.
Arguments set_blob_metadata {W} _ _ _ _.
Arguments delete_blob {W} _ _ _.
Arguments download_blob {W} _ _ _.
Arguments generate_blob_sas {W} _ _.
Arguments utcnow {W} _ _.
Arguments guess_type {W} _ _.
Arguments py_str {W} _ _.
Arguments py_repr {W} _ _.
Arguments py_decimal_to_ascii {W} _ _.

(** What the interpreter decides about signals.  [signal_error w] is the
    exception [signal.signal] raises in world [w], as it does outside the
    main thread, and [None] when it installs the handler.  [alarm_fires
    seconds func w] is [Some w'] when [func], started in [w], has not
    returned after [seconds] seconds, [w'] being the world at that moment. *)
Record Runtime (W : Type) := mkRuntime {
  signal_error : W -> option PyExn;
  alarm_fires : forall A : Type, Z -> M W A -> W -> option W
}.
Arguments signal_error {W} _ _.
Arguments alarm_fires {W} _ {A} _ _ _.

(** [s.split("/")[-1]] *)
Definition basename (s : string) : string := default "" (last (PyStr.split "/" s)).

Definition dquote : string := String "034"%char EmptyString.
Definition squote : string := String "039"%char EmptyString.

(** [_account_key_from_conn_str] *)
Definition _account_key_from_conn_str (conn_str : option string) : option string :=
  if negb (truthy conn_str) then None
  else
    let parts := _parse_conn_str (default "" conn_str) in
    por (parts !! "AccountKey") (parts !! "accountkey").

Section App.

Context {W : Type} (sdk : Sdk W) (env : Env) (rt : Runtime W).

Definition bsc : M W BlobServiceClient :=
  lift (from_connection_string sdk (getenv env "AZURE_STORAGE_CONNECTION_STRING")).

(** [os.getenv("BLOB_CONTAINER", os.getenv("AZURE_STORAGE_CONTAINER", "uploads"))] *)
Definition container_name_env : string :=
  getenv_default env "BLOB_CONTAINER" (getenv_default env "AZURE_STORAGE_CONTAINER" "uploads").

(** [int(v)] on a [str]: ASCII text is parsed as it stands, other text
    after [py_decimal_to_ascii]. *)
Definition py_int (v : string) : option Z :=
  if PyInt.is_ascii v then PyInt.int v else PyInt.int (py_decimal_to_ascii sdk v).

Definition make_sas (container blob : string) (minutes : option Z) : M W string :=
  let* service := bsc in
  let account_name := account_name service in
  let* minutes :=
    if match minutes with Some m => negb (m =? 0) | None => false end
    then ret (default 0 minutes)
    else
      let v := getenv_default env "SAS_EXPIRY_MINUTES" "5" in
      match py_int v with
      | Some m => ret m
      | None => raise (mkExn "ValueError"
                         ("invalid literal for int() with base 10: " +:+ py_repr sdk v))
      end in
  let* now := gets (utcnow sdk) in
  let expiry := now + timedelta_minutes minutes in
  let* sas :=
    lift (generate_blob_sas sdk
            (mkSasArgs account_name container blob
               (por (getenv env "ACCOUNT_KEY")
                    (_account_key_from_conn_str
                       (Some (getenv_default env "AZURE_STORAGE_CONNECTION_STRING" ""))))
               read_permission expiry)) in
  ret (blob_base_url env account_name +:+ "/" +:+ container +:+ "/"
         +:+ UrlQuote.quote blob +:+ "?" +:+ sas).

Definition ensure_container_exists (container_name : string) : M W ContainerClient :=
  let* svc := bsc in
  let cc := get_container_client svc container_name in
  let* _ :=
    try_except
      (let* _ := get_container_properties sdk cc in
       if is_azurite env then
         try_except (set_container_access_policy sdk cc "blob") (fun _ => ret tt)
       else ret tt)
      (fun _ =>
         try_except
           (let* _ := create_container sdk cc in
            if is_azurite env then
              try_except (set_container_access_policy sdk cc "blob") (fun _ => ret tt)
            else ret tt)
           (fun _ => ret tt)) in
  ret cc.

(** [_run_with_timeout]: [signal.signal] may refuse to install the handler,
    before [func] is called; otherwise [func] runs unless the alarm fires
    first, and then the handler raises [TimeoutError].  The [finally]
    clause resets the alarm and the handler and changes no outcome. *)
Definition _run_with_timeout {A} (seconds : Z) (func : M W A) : M W A :=
  fun w =>
    match signal_error rt w with
    | Some e => (Raise e, w)
    | None =>
        match alarm_fires rt seconds func w with
        | Some w' => (Raise (mkExn "TimeoutError" "operation timed out"), w')
        | None => func w
        end
    end.

(** *** Handlers *)

(** The catch-all [except Exception as e: return jsonify({"error": str(e)}), code]. *)
Definition error_response (code : Z) (e : PyExn) : M W Response :=
  ret (jsonify_status (error_envelope (exn_str e)) code).

(** The content type [api_list_blobs] reports for one listed blob. *)
Definition list_content_type (blob : BlobProperties) : string :=
  let md := default ∅ (metadata blob) in
  let ctype := por_str (md !! "mime_type") "" in
  match content_settings blob with
  | Some cs => por_str (por (Some ctype) (content_type cs)) ""
  | None => ctype
  end.

Definition list_blob_item (container_name : string) (blob : BlobProperties) : json :=
  let md := default ∅ (metadata blob) in
  let last_modified := last_modified blob in
  let content_type := list_content_type blob in
  let content_encoding :=
    match content_settings blob with Some cs => por_str (content_encoding cs) "" | None => "" end in
  let content_language :=
    match content_settings blob with Some cs => por_str (content_language cs) "" | None => "" end in
  let cache_control :=
    match content_settings blob with Some cs => por_str (cache_control cs) "" | None => "" end in
  let blob_type := por_str (blob_type blob) "BlockBlob" in
  let etag := por (etag blob) None in
  JObj [ ("id", JStr (name blob));
         ("name", JStr (basename (name blob)));
         ("size", JInt (default 0 (size blob)));
         ("type", JStr content_type);
         ("lastModified", json_opt_str last_modified);
         ("metadata", json_dict md);
         ("blob_path", JStr (container_name +:+ "/" +:+ name blob));
         ("etag", json_opt_str etag);
         ("contentType", JStr content_type);
         ("contentEncoding", JStr content_encoding);
         ("contentLanguage", JStr content_language);
         ("cacheControl", JStr cache_control);
         ("blobType", JStr blob_type) ].

Definition api_list_blobs_try : M W Response :=
  let* service := bsc in
  let container_name := container_name_env in
  let* container := ensure_container_exists container_name in
  let include := if is_azurite env then ["metadata"] else ["metadata"; "tags"] in
  let* listed := list_blobs sdk container include in
  let blobs := list_blob_item container_name <$> listed in
  ret (jsonify (JObj [("blobs", JArr blobs)])).

Definition api_list_blobs : M W Response :=
  try_except api_list_blobs_try (error_response 500).

(** [content_settings.get(k)] after [content_settings = props.content_settings or {}]. *)
Definition cs_get (props : BlobProperties) (field : ContentSettings -> option string) : option string :=
  match content_settings props with Some cs => field cs | None => None end.

(** The ["type"] member of [api_get_blob]. *)
Definition get_type (props : BlobProperties) : string :=
  let md := default ∅ (metadata props) in
  por_str (por (md !! "mime_type") (cs_get props content_type)) "".

(** The ["contentType"] member of [api_get_blob]. *)
Definition get_contentType (props : BlobProperties) : string :=
  let md := default ∅ (metadata props) in
  por_str (por (cs_get props content_type) (md !! "mime_type")) "".

Definition get_blob_item (container_name blob_name : string) (props : BlobProperties) : json :=
  let md := default ∅ (metadata props) in
  let last_modified := last_modified props in
  JObj [ ("id", JStr blob_name);
         ("name", JStr (basename blob_name));
         ("size", JInt (default 0 (size props)));
         ("type", JStr (get_type props));
         ("lastModified", json_opt_str last_modified);
         ("metadata", json_dict md);
         ("blob_path", JStr (container_name +:+ "/" +:+ blob_name));
         ("etag", json_opt_str (if truthy (etag props) then etag props else None));
         ("contentType", JStr (get_contentType props));
         ("contentEncoding", JStr (por_str (cs_get props content_encoding) ""));
         ("contentLanguage", JStr (por_str (cs_get props content_language) ""));
         ("cacheControl", JStr (por_str (cs_get props cache_control) ""));
         ("blobType", JStr (por_str (blob_type props) "BlockBlob"));
         ("creationTime", json_opt_str (creation_time props)) ].

Definition api_get_blob_try (blob_name : string) : M W Response :=
  let* service := bsc in
  let container_name := container_name_env in
  let blob_client := get_blob_client service container_name blob_name in
  let* props := get_blob_properties sdk blob_client in
  ret (jsonify (get_blob_item container_name blob_name props)).

Definition api_get_blob (blob_name : string) : M W Response :=
  try_except (api_get_blob_try blob_name) (error_response 404).

(** The content type stored by [api_upload_blob]. *)
Definition upload_content_type (f_filename : string) (f_content_type : option string) : string :=
  let content_type := guess_type sdk f_filename in
  if negb (truthy content_type) then por_str f_content_type "application/octet-stream"
  else default "" content_type.

Definition api_upload_blob_try (f : FileStorage) : M W Response :=
  let f_filename := default "" (filename f) in
  let* service := bsc in
  let container_name := container_name_env in
  let* _ := ensure_container_exists container_name in
  let blob_client := get_blob_client service container_name f_filename in
  let content_type := upload_content_type f_filename (file_content_type f) in
  let content_settings := mkContentSettings (Some content_type) None None None in
  let* _ := upload_blob sdk blob_client f true content_settings in
  ret (jsonify (JObj [("message", JStr "Uploaded successfully");
                      ("filename", JStr f_filename)])).

(** [files_file] is [request.files.get("file")]: [None] when the part is
    missing. *)
Definition api_upload_blob (files_file : option FileStorage) : M W Response :=
  match files_file with
  | None => ret (jsonify_status (error_envelope "No file provided") 400)
  | Some f =>
      if negb (truthy (filename f)) then
        ret (jsonify_status (error_envelope "Empty filename") 400)
      else
        try_except (api_upload_blob_try f) (error_response 500)
  end.

(** [{k: str(v) for k, v in metadata.items()}] *)
Definition string_metadata (members : list (string * json)) : gmap string string :=
  foldl (fun d kv => <[kv.1 := py_str sdk kv.2]> d) ∅ members.

(** [request_json] is the outcome of evaluating [request.json]: the parsed
    body, or the exception Flask raises for a missing or malformed one. *)
Definition api_update_metadata_try (blob_name : string) (request_json : Result json) : M W Response :=
  let* j := lift request_json in
  let* metadata :=
    match j with
    | JObj members => ret (default (JObj []) (members_get "metadata" members))
    | _ => raise (mkExn "AttributeError"
                    (squote +:+ py_type_name j +:+ "' object has no attribute 'get'"))
    end in
  match metadata with
  | JObj members =>
      let* service := bsc in
      let container_name := container_name_env in
      let blob_client := get_blob_client service container_name blob_name in
      let* _ := set_blob_metadata sdk blob_client (string_metadata members) in
      ret (jsonify (JObj [("message", JStr "Metadata updated successfully")]))
  | _ => ret (jsonify_status (error_envelope "Metadata must be a dictionary") 400)
  end.

Definition api_update_metadata (blob_name : string) (request_json : Result json) : M W Response :=
  try_except (api_update_metadata_try blob_name request_json) (error_response 500).

Definition api_delete_blob_try (blob_name : string) : M W Response :=
  let* service := bsc in
  let container_name := container_name_env in
  let blob_client := get_blob_client service container_name blob_name in
  let* _ := delete_blob sdk blob_client in
  ret (jsonify (JObj [("message", JStr "Blob deleted successfully")])).

Definition api_delete_blob (blob_name : string) : M W Response :=
  try_except (api_delete_blob_try blob_name) (error_response 500).

Definition api_get_blob_url_try (blob_name : string) : M W Response :=
  let container_name := container_name_env in
  let* url := make_sas container_name blob_name None in
  ret (jsonify (JObj [("url", JStr url)])).

Definition api_get_blob_url (blob_name : string) : M W Response :=
  try_except (api_get_blob_url_try blob_name) (error_response 500).

(** The content type [api_view_blob] serves: steps 1 to 4 of the source.
    Step 2 reads [props.content_settings.content_type] and raises when
    [content_settings] is [None]. *)
Definition view_content_type (props : BlobProperties) (blob_name : string) : Result string :=
  let md := default ∅ (metadata props) in
  let step1 := md !! "mime_type" in
  match (if negb (truthy step1) then
           match content_settings props with
           | Some cs => Ok (content_type cs)
           | None => Raise (mkExn "AttributeError"
                              "'NoneType' object has no attribute 'content_type'")
           end
         else Ok step1) with
  | Raise e => Raise e
  | Ok step2 =>
      let step3 := if negb (truthy step2) then guess_type sdk blob_name else step2 in
      Ok (if negb (truthy step3) then "application/octet-stream" else default "" step3)
  end.

(** A value with a carriage return or a line feed, which werkzeug refuses
    in a header. *)
Fixpoint has_newline (v : string) : bool :=
  match v with
  | EmptyString => false
  | String c r =>
      bool_decide (c = "013"%char) || bool_decide (c = "010"%char) || has_newline r
  end.

Definition header_value_error : PyExn :=
  mkExn "ValueError" "Header values must not contain newline characters.".

(** [response.headers[k] = v] in a handler. *)
Definition assign_header (k v : string) (r : Response) : Result Response :=
  if has_newline v then Raise header_value_error else Ok (with_header k v r).

(** [Response(generate(), mimetype=content_type)]: the constructor assigns
    the [Content-Type] header. *)
Definition streaming_response (content_type : string) (chunks : list string) : Result Response :=
  if has_newline content_type then Raise header_value_error
  else Ok (mkResponse 200 content_type [] (StreamBody chunks)).

Definition and_then {A B} (r : Result A) (k : A -> Result B) : Result B :=
  match r with
  | Ok a => k a
  | Raise e => Raise e
  end.

(** The response [api_view_blob] builds and the headers it sets on it. *)
Definition view_response (props : BlobProperties) (blob_name content_type : string)
    (chunks : list string) : Result Response :=
  and_then (streaming_response content_type chunks) (fun response =>
  let filename := basename blob_name in
  and_then
    (assign_header "Content-Disposition"
       ("inline; filename=" +:+ dquote +:+ filename +:+ dquote +:+ "; filename*=UTF-8"
          +:+ squote +:+ squote +:+ UrlQuote.quote filename) response) (fun response =>
  and_then (assign_header "Cache-Control" "public, max-age=3600" response) (fun response =>
  and_then (assign_header "X-Content-Type-Options" "nosniff" response) (fun response =>
  match size props with
  | Some n => if n =? 0 then Ok response
              else assign_header "Content-Length" (pretty n) response
  | None => Ok response
  end)))).

(** The blob is downloaded lazily by a generator; its chunks are modelled
    as the list the download yields. *)
Definition api_view_blob_try (blob_name : string) : M W Response :=
  let* service := bsc in
  let container_name := container_name_env in
  let blob_client := get_blob_client service container_name blob_name in
  let* props := get_blob_properties sdk blob_client in
  let* content_type := lift (view_content_type props blob_name) in
  let* blob_download := download_blob sdk blob_client in
  lift (view_response props blob_name content_type blob_download).

Definition api_view_blob (blob_name : string) : M W Response :=
  try_except (api_view_blob_try blob_name) (error_response 404).

Definition health : M W Response := ret (jsonify (JObj [("ok", JBool true)])).

Definition health_storage_try : M W Response :=
  let container_name := container_name_env in
  let* cc := ensure_container_exists container_name in
  let* _ := _run_with_timeout 3 (get_container_properties sdk cc) in
  ret (jsonify (JObj [("ok", JBool true); ("container", JStr container_name)])).

Definition health_storage : M W Response :=
  try_except health_storage_try
    (fun ex => ret (jsonify_status (JObj [("ok", JBool false); ("error", JStr (exn_str ex))]) 503)).

(** A request as the client sees it: the handler, then the
    [after_request] hook. *)
Definition served (handler : M W Response) : M W Response :=
  let* response := handler in ret (add_security_headers response).

End App.

(** ** An in-memory storage account

    A small executable stand-in for the SDK: one account whose service is
    either reachable or not, with its containers and the blobs of the
    configured container.  It instantiates [Sdk] in the examples below; the
    general theorems quantify over every [Sdk]. *)
Module Sim.

Record World := mkWorld {
  online : bool;
  clock : Z;
  containers : list string;
  blobs : gmap string (BlobProperties * string)
}.

Definition unreachable : PyExn :=
  mkExn "ServiceRequestError" "Cannot connect to host 127.0.0.1:10000".
Definition container_not_found : PyExn :=
  mkExn "ResourceNotFoundError" "The specified container does not exist.".
Definition container_exists : PyExn :=
  mkExn "ResourceExistsError" "The specified container already exists.".
Definition blob_not_found : PyExn :=
  mkExn "ResourceNotFoundError" "The specified blob does not exist.".

(** Every network call fails when the service is unreachable. *)
Definition call {A} (m : M World A) : M World A :=
  fun w => if online w then m w else (Raise unreachable, w).

Definition in_container {A} (c : string) (m : M World A) : M World A :=
  call (fun w => if bool_decide (c ∈ containers w) then m w
                 else (Raise container_not_found, w)).

Definition with_blobs (f : gmap string (BlobProperties * string) -> gmap string (BlobProperties * string))
    (w : World) : World :=
  mkWorld (online w) (clock w) (containers w) (f (blobs w)).

Definition sim_from_connection_string (cs : option string) : Result BlobServiceClient :=
  match cs with
  | None => Raise (mkExn "ValueError" "Connection string is either blank or malformed.")
  | Some s =>
      if PyStr.startswith s "UseDevelopmentStorage=true" then Ok (mkService "devstoreaccount1")
      else match _parse_conn_str s !! "AccountName" with
           | Some a => Ok (mkService a)
           | None => Raise (mkExn "ValueError" "Connection string missing required connection details.")
           end
  end.

Definition sim_create_container (cc : ContainerClient) : M World unit :=
  call (fun w => if bool_decide (cc_container cc ∈ containers w)
                 then (Raise container_exists, w)
                 else (Ok tt, mkWorld (online w) (clock w) (cc_container cc :: containers w) (blobs w))).

Definition sim_get_blob_properties (bc : BlobClient) : M World BlobProperties :=
  in_container (bc_container bc)
    (fun w => match blobs w !! bc_blob bc with
              | Some (props, _) => (Ok props, w)
              | None => (Raise blob_not_found, w)
              end).

Definition sim_upload_blob (bc : BlobClient) (f : FileStorage) (overwrite : bool)
    (cs : ContentSettings) : M World unit :=
  in_container (bc_container bc)
    (fun w =>
       let props := mkBlobProperties (bc_blob bc) (Some (Z.of_nat (String.length (file_data f))))
                      None None (Some ∅) (Some cs) (Some "BlockBlob") None in
       (Ok tt, with_blobs <[bc_blob bc := (props, file_data f)]> w)).

Definition sim_set_blob_metadata (bc : BlobClient) (md : gmap string string) : M World unit :=
  in_container (bc_container bc)
    (fun w => match blobs w !! bc_blob bc with
              | Some (p, data) =>
                  let p' := mkBlobProperties (name p) (size p) (last_modified p) (etag p) (Some md)
                              (content_settings p) (blob_type p) (creation_time p) in
                  (Ok tt, with_blobs <[bc_blob bc := (p', data)]> w)
              | None => (Raise blob_not_found, w)
              end).

Definition sim_delete_blob (bc : BlobClient) : M World unit :=
  in_container (bc_container bc)
    (fun w => match blobs w !! bc_blob bc with
              | Some _ => (Ok tt, with_blobs (delete (bc_blob bc)) w)
              | None => (Raise blob_not_found, w)
              end).

Definition sim_download_blob (bc : BlobClient) : M World (list string) :=
  in_container (bc_container bc)
    (fun w => match blobs w !! bc_blob bc with
              | Some (_, data) => (Ok [data], w)
              | None => (Raise blob_not_found, w)
              end).

Definition sim_generate_blob_sas (a : SasArgs) : Result string :=
  match sas_account_key a with
  | Some _ =>
      Ok ("se=" +:+ pretty (sas_expiry a) +:+ "&sp="
            +:+ (if perm_read (sas_permission a) then "r" else "")
            +:+ (if perm_write (sas_permission a) then "w" else "")
            +:+ (if perm_delete (sas_permission a) then "d" else "")
            +:+ "&sr=b&sig=0")
  | None => Raise (mkExn "ValueError" "Either user_delegation_key or account_key must be provided.")
  end.

(** The text after the last ["."] of the last path segment, if any. *)
Fixpoint extension (s : string) : option string :=
  match s with
  | EmptyString => None
  | String c r =>
      match extension r with
      | Some e => Some e
      | None => if decide (c = "."%char) then Some r else None
      end
  end.

(** A few rows of [mimetypes.types_map]. *)
Definition sim_guess_type (url : string) : option string :=
  match PyStr.lower <$> extension (basename url) with
  | Some "pdf" => Some "application/pdf"
  | Some "txt" => Some "text/plain"
  | Some "png" => Some "image/png"
  | Some "json" => Some "application/json"
  | _ => None
  end.

(** [str] on the scalar JSON values. *)
Definition sim_py_str (j : json) : string :=
  match j with
  | JNull => "None"
  | JBool true => "True"
  | JBool false => "False"
  | JInt z => pretty z
  | JFloat lexeme => lexeme
  | JStr s => s
  | JArr _ => "[...]"
  | JObj _ => "{...}"
  end.

(** [repr] of text without quotes, backslashes or control characters. *)
Definition sim_py_repr (s : string) : string :=
  String "039"%char EmptyString +:+ s +:+ String "039"%char EmptyString.

(** No table of Unicode digits and spaces: the text is cut at its first
    character outside ASCII, which is replaced by ["?"] as for a character
    that is neither. *)
Fixpoint sim_decimal_to_ascii (s : string) : string :=
  match s with
  | EmptyString => EmptyString
  | String c r => if (nat_of_ascii c <? 128)%nat then String c (sim_decimal_to_ascii r)
                  else "?"
  end.

Definition sdk : Sdk World :=
  mkSdk World
    sim_from_connection_string
    (fun cc => in_container (cc_container cc) (ret tt))
    sim_create_container
    (fun cc _ => in_container (cc_container cc) (ret tt))
    (fun cc _ => in_container (cc_container cc)
                   (fun w => (Ok ((fun kv => kv.2.1) <$> map_to_list (blobs w)), w)))
    sim_get_blob_properties
    sim_upload_blob
    sim_set_blob_metadata
    sim_delete_blob
    sim_download_blob
    sim_generate_blob_sas
    clock
    sim_guess_type
    sim_py_str
    sim_py_repr
    sim_decimal_to_ascii.

Definition create_for {A} (c : string) (r : Result A * World) : Result A * World :=
  match r with
  | (Raise e, w) =>
      (Raise e, if online w && negb (bool_decide (c ∈ containers w))
                then mkWorld (online w) (clock w) (c :: containers w) (blobs w)
                else w)
  | ok => ok
  end.

(** The same account while another client provisions the container: a
    properties read that finds nothing is followed at once by the other
    client's creation. *)
Definition racing_sdk : Sdk World :=
  mkSdk World
    sim_from_connection_string
    (fun cc w => create_for (cc_container cc) (get_container_properties sdk cc w))
    (create_container sdk) (set_container_access_policy sdk) (list_blobs sdk)
    (get_blob_properties sdk) (upload_blob sdk) (set_blob_metadata sdk) (delete_blob sdk)
    (download_blob sdk) (generate_blob_sas sdk) (utcnow sdk) (guess_type sdk) (py_str sdk)
    (py_repr sdk) (py_decimal_to_ascii sdk).

(** The main thread, with a backend that answers at once. *)
Definition main_thread : Runtime World :=
  mkRuntime World (fun _ => None) (fun _ _ _ _ => None).

(** A worker thread of the development server. *)
Definition worker_thread : Runtime World :=
  mkRuntime World
    (fun _ => Some (mkExn "ValueError" "signal only works in main thread of the main interpreter"))
    (fun _ _ _ _ => None).

Definition go_offline (w : World) : World :=
  mkWorld false (clock w) (containers w) (blobs w).

(** The emulator configuration of local development. *)
Definition azurite_env : Env :=
  {[ "AZURE_STORAGE_CONNECTION_STRING" :=
       "DefaultEndpointsProtocol=http;AccountName=devstoreaccount1;AccountKey=a2V5;BlobEndpoint=http://127.0.0.1:10000/devstoreaccount1;" ]}.

Definition empty_account : World := mkWorld true 1700000000000000 [] ∅.
Definition offline_account : World := mkWorld false 1700000000000000 [] ∅.

End Sim.

(** * Specification vocabulary and scenarios

    The notions the specification states its properties with, defined over
    the embedding, and the concrete environments and blobs the examples
    run on. *)

Definition connection_descriptor (env : Env) : string :=
  getenv_default env "AZURE_STORAGE_CONNECTION_STRING" "".

(** The recognized cloud-platform marker variables. *)
Definition production_markers : list string :=
  [ "CONTAINER_APP_NAME"; "CONTAINER_APP_ENV_DNS_SUFFIX"; "WEBSITE_SITE_NAME";
    "WEBSITE_INSTANCE_ID"; "APPSETTING_WEBSITE_SITE_NAME" ].

(** A production signal: some marker variable is set to a non-empty value,
    or the production storage domain occurs in the connection descriptor. *)
Definition production_signal (env : Env) : bool :=
  existsb (fun k => truthy (getenv env k)) production_markers
  || PyStr.contains "blob.core.windows.net" (PyStr.lower (connection_descriptor env)).

(** A field of the connection descriptor under either spelling of its key. *)
Definition descriptor_field (env : Env) (key key_lower : string) : string :=
  let parts := _parse_conn_str (connection_descriptor env) in
  PyStr.lower (por_str (por (parts !! key) (parts !! key_lower)) "").

(** An emulator signal: the development-storage shortcut, the well-known
    emulator account name, or the emulator host or port marker in the blob
    endpoint. *)
Definition emulator_signal (env : Env) : bool :=
  PyStr.startswith (connection_descriptor env) "UseDevelopmentStorage=true"
  || bool_decide (descriptor_field env "AccountName" "accountname" = "devstoreaccount1")
  || PyStr.contains "azurite" (descriptor_field env "BlobEndpoint" "blobendpoint")
  || PyStr.contains "127.0.0.1:10000" (descriptor_field env "BlobEndpoint" "blobendpoint").

(** No public-base override: the variable is unset or empty. *)
Definition no_public_base (env : Env) : bool :=
  negb (truthy (getenv env "PUBLIC_BLOB_BASE_URL")).

(** An environment carrying an override, a platform marker and the
    development-storage shortcut at once. *)
Definition overridden_env : Env :=
  {[ "PUBLIC_BLOB_BASE_URL" := "http://127.0.0.1:10000";
     "CONTAINER_APP_NAME" := "blob-api";
     "AZURE_STORAGE_CONNECTION_STRING" := "UseDevelopmentStorage=true" ]}.

(** A deployed emulator: a platform marker next to the emulator account. *)
Definition marked_emulator_env : Env :=
  {[ "CONTAINER_APP_NAME" := "blob-api";
     "AZURE_STORAGE_CONNECTION_STRING" :=
       "DefaultEndpointsProtocol=http;AccountName=devstoreaccount1;AccountKey=a2V5;BlobEndpoint=http://azurite:10000/devstoreaccount1;" ]}.

(** The test of [blob_base_url] itself: the text [localhost] or
    [127.0.0.1] occurs somewhere in the override, in this spelling. *)
Definition targets_local (public_base : string) : bool :=
  PyStr.contains "localhost" public_base || PyStr.contains "127.0.0.1" public_base.

(** The first branch of [blob_base_url], taken whenever the override is
    set to a non-empty value. *)
Definition override_url (public_base account : string) : string :=
  if negb (PyStr.startswith public_base "http://" || PyStr.startswith public_base "https://") then
    "https://" +:+ PyStr.rstrip "/" public_base +:+ "/" +:+ account
  else if PyStr.startswith public_base "http://" && negb (targets_local public_base) then
    PyStr.rstrip "/" (PyStr.replace1 "http://" "https://" public_base) +:+ "/" +:+ account
  else
    PyStr.rstrip "/" public_base +:+ "/" +:+ account.

Definition custom_host_env : Env := {[ "PUBLIC_BLOB_BASE_URL" := "http://cdn.example.com/" ]}.

(** The account key [make_sas] signs with: the explicit override, else the
    one in the connection descriptor. *)
Definition resolved_account_key (env : Env) : option string :=
  por (getenv env "ACCOUNT_KEY")
      (_account_key_from_conn_str (Some (connection_descriptor env))).

(** The [generate_blob_sas] call of a request issued at time [now] with
    the default lifetime of five minutes. *)
Definition default_sas_args (env : Env) (svc : BlobServiceClient) (container blob : string)
    (now : Z) : SasArgs :=
  mkSasArgs (account_name svc) container blob (resolved_account_key env)
    read_permission (now + timedelta_minutes 5).

(** A handler answers every exception of its [try] block with the error
    envelope under one fixed status. *)
Definition maps_exceptions_to {W} (code : Z) (body handler : M W Response) : Prop :=
  forall w e w',
    body w = (Raise e, w') ->
    handler w = (Ok (jsonify_status (error_envelope (exn_str e)) code), w').

(** The four-step precedence of the specification: [mime_type] metadata,
    else the content-settings content type, else the extension guess, else
    [application/octet-stream]. *)
Definition four_step_content_type (guess : string -> option string)
    (props : BlobProperties) (blob_name : string) : string :=
  por_str (por (por (default ∅ (metadata props) !! "mime_type")
                    (cs_get props content_type))
               (guess blob_name))
          "application/octet-stream".

(** A blob stored by another tool, with neither [mime_type] metadata nor a
    content type. *)
Definition untyped_report : BlobProperties :=
  mkBlobProperties "report.pdf" (Some 4) None None (Some ∅)
    (Some (mkContentSettings None None None None)) (Some "BlockBlob") None.

(** The account after an upload of an empty file. *)
Definition account_with_empty_blob : Sim.World :=
  (api_upload_blob Sim.sdk Sim.azurite_env
     (Some (mkFile (Some "empty.txt") (Some "text/plain") "")) Sim.empty_account).2.

(** [c not in s] *)
Fixpoint no_char (c : ascii) (s : string) : bool :=
  match s with
  | EmptyString => true
  | String a r => negb (bool_decide (a = c)) && no_char c r
  end.

(** One step of the dictionary construction in [_parse_conn_str]. *)
Definition conn_str_step (d : gmap string string) (p : string) : gmap string string :=
  match PyStr.split1 "=" p with
  | (k, Some v) => <[k := v]> d
  | (_, None) => d
  end.

(** The names set by the [after_request] hook. *)
Definition security_header_names : list string :=
  [ "Content-Security-Policy"; "X-Content-Type-Options"; "X-Frame-Options";
    "X-XSS-Protection"; "Strict-Transport-Security" ].

(** A header name other than those of the hook, case aside. *)
Definition not_security_header (k : string) : bool :=
  forallb (fun n => negb (same_header k n)) security_header_names.

(** How many entries of a header list carry the name [k], case aside. *)
Definition count_header (k : string) (hs : list (string * string)) : nat :=
  length (filter (fun kv => same_header k kv.1 = true) hs).

(** A JSON object body with a string [error] member. *)
Definition is_error_body (r : Response) : Prop :=
  exists members msg,
    body r = JsonBody (JObj members) /\ members_get "error" members = Some (JStr msg).

(** In every world the handler returns a response, its status is one of
    [codes], and any status other than 200 comes with an error body. *)
Definition answers {W} (handler : M W Response) (codes : list Z) : Prop :=
  forall w, exists r w',
    handler w = (Ok r, w') /\ status r ∈ codes /\ (status r = 200 \/ is_error_body r).

(** The [Content-Disposition] value of View. *)
Definition content_disposition (blob_name : string) : string :=
  "inline; filename=" +:+ dquote +:+ basename blob_name +:+ dquote +:+ "; filename*=UTF-8"
    +:+ squote +:+ squote +:+ UrlQuote.quote (basename blob_name).

(** The response of View once every header assignment has gone through. *)
Definition view_headers (props : BlobProperties) (blob_name content_type : string)
    (chunks : list string) : Response :=
  let response :=
    with_header "X-Content-Type-Options" "nosniff"
      (with_header "Cache-Control" "public, max-age=3600"
         (with_header "Content-Disposition" (content_disposition blob_name)
            (mkResponse 200 content_type [] (StreamBody chunks)))) in
  match size props with
  | Some n => if n =? 0 then response else with_header "Content-Length" (pretty n) response
  | None => response
  end.




(** The in-memory account after two uploads. *)
Definition account_with_two_blobs : Sim.World :=
  (api_upload_blob Sim.sdk Sim.azurite_env
     (Some (mkFile (Some "docs/report.pdf") None "%PDF"))
     (api_upload_blob Sim.sdk Sim.azurite_env
        (Some (mkFile (Some "notes.txt") (Some "text/plain") "hi"))
        Sim.empty_account).2).2.

(** A blob name whose last path segment holds a line feed, and the
    in-memory account after its upload. *)
Definition broken_name : string := "logs/a" +:+ String "010"%char "b.txt".

Definition account_with_broken_name : Sim.World :=
  (api_upload_blob Sim.sdk Sim.azurite_env
     (Some (mkFile (Some broken_name) None "x")) Sim.empty_account).2.

(** The first characters of [s] up to, and without, the first one that
    [stop] accepts. *)
Fixpoint take_until (stop : ascii -> bool) (s : string) : string :=
  match s with
  | EmptyString => EmptyString
  | String c r => if stop c then EmptyString else String c (take_until stop r)
  end.

(** The host an [http://] URL names: what follows the scheme up to the
    port, path, query or fragment; an IPv6 literal is kept in its
    brackets. *)
Definition url_host (url : string) : string :=
  match PyStr.drop 7 url with
  | String "[" r => "[" +:+ take_until (fun c => bool_decide (c = "]"%char)) r +:+ "]"
  | rest => take_until (fun c => bool_decide (c ∈ [":"; "/"; "?"; "#"]%char)) rest
  end.

(** A loopback or local host, in the words of the specification: the name
    [localhost] in any letter case, or the loopback address of IPv4 or
    IPv6. *)
Definition loopback_host (host : string) : bool :=
  bool_decide (PyStr.lower host ∈ ["localhost"; "127.0.0.1"; "[::1]"]).

(** * Properties *)

(** ** Strings *)

Lemma startswith_app (p r : string) : PyStr.startswith (p +:+ r) p = true.
Proof.
  induction p as [|a p IH]; [reflexivity|].
  change (String a p +:+ r) with (String a (p +:+ r)).
  cbn. destruct (decide (a = a)); [exact IH | congruence].
Qed.

Lemma startswith_inv (s p : string) :
  PyStr.startswith s p = true -> s = p +:+ PyStr.drop (String.length p) s.
Proof.
  revert s. induction p as [|a p IH]; intros s H; [reflexivity|].
  destruct s as [|b s]; [discriminate|].
  cbn in H. destruct (decide (a = b)) as [->|]; [|discriminate].
  change (String b p +:+ PyStr.drop (String.length (String b p)) (String b s))
    with (String b (p +:+ PyStr.drop (String.length p) s)).
  f_equal. apply IH, H.
Qed.

Lemma replace1_prefix (old new s : string) :
  PyStr.startswith s old = true ->
  PyStr.replace1 old new s = new +:+ PyStr.drop (String.length old) s.
Proof. intros H. destruct s; cbn [PyStr.replace1]; rewrite H; reflexivity. Qed.

Lemma rstrip_cons_ne (c a : ascii) (r : string) :
  a <> c -> PyStr.rstrip c (String a r) = String a (PyStr.rstrip c r).
Proof.
  intros Hne. cbn [PyStr.rstrip].
  destruct (PyStr.rstrip c r); [|reflexivity].
  destruct (decide (a = c)); [contradiction | reflexivity].
Qed.

Lemma rstrip_cons_nonempty (c a : ascii) (r : string) :
  PyStr.rstrip c r <> "" -> PyStr.rstrip c (String a r) = String a (PyStr.rstrip c r).
Proof.
  intros Hne. cbn [PyStr.rstrip].
  destruct (PyStr.rstrip c r); [contradiction | reflexivity].
Qed.

Lemma startswith_rstrip_nonempty (c x : ascii) (n s : string) :
  x <> c -> PyStr.startswith s (String x n) = true -> PyStr.rstrip c s <> "".
Proof.
  intros Hne H. destruct s as [|b s]; [discriminate|].
  cbn in H. destruct (decide (x = b)) as [<-|]; [|discriminate].
  rewrite rstrip_cons_ne by exact Hne. discriminate.
Qed.

(** A string containing a character other than [c] is not stripped away. *)
Lemma contains_rstrip_nonempty (c x : ascii) (n s : string) :
  x <> c -> PyStr.contains (String x n) s = true -> PyStr.rstrip c s <> "".
Proof.
  intros Hne. induction s as [|b s IH]; intros H.
  - discriminate.
  - cbn [PyStr.contains] in H. apply orb_true_iff in H as [H|H].
    + eapply startswith_rstrip_nonempty; eauto.
    + rewrite rstrip_cons_nonempty by auto. discriminate.
Qed.

Lemma por_str_some_empty (s : string) : por_str (Some s) "" = s.
Proof. destruct s; reflexivity. Qed.

(** ** Endpoint classification *)

Lemma is_azure_production_signal (env : Env) :
  is_azure_production env = production_signal env.
Proof.
  unfold is_azure_production, production_signal, production_markers, connection_descriptor.
  cbn [existsb]. rewrite por_str_some_empty, orb_false_r, !orb_assoc. reflexivity.
Qed.

Lemma is_azurite_signal (env : Env) : is_azurite env = emulator_signal env.
Proof.
  unfold is_azurite, emulator_signal, descriptor_field, connection_descriptor.
  destruct (PyStr.startswith _ "UseDevelopmentStorage=true"); reflexivity.
Qed.

Lemma blob_base_url_derived (env : Env) (account : string) :
  no_public_base env = true ->
  blob_base_url env account =
    if emulator_signal env && negb (production_signal env)
    then "http://127.0.0.1:" +:+ getenv_default env "AZURITE_BLOB_HOST_PORT" "10000"
           +:+ "/" +:+ account
    else "https://" +:+ account +:+ ".blob.core.windows.net".
Proof.
  unfold no_public_base, blob_base_url. intros H.
  apply negb_true_iff in H. rewrite H. cbv zeta.
  rewrite is_azurite_signal, is_azure_production_signal. reflexivity.
Qed.

(** ** Base-URL derivation *)

(** C4, as stated, fails: with both signals present the configured override
    still decides, and a loopback override stays on [http://]. *)
Lemma override_beats_production_signal :
  production_signal overridden_env = true /\
  emulator_signal overridden_env = true /\
  blob_base_url overridden_env "devstoreaccount1" = "http://127.0.0.1:10000/devstoreaccount1" /\
  blob_base_url overridden_env "devstoreaccount1" <> "https://devstoreaccount1.blob.core.windows.net".
Proof. repeat split; try (vm_compute; reflexivity). vm_compute. discriminate. Qed.

(** C4 (amended): with no public-base override, whenever a production
    signal and an emulator signal both hold, the derivation classifies as
    production and returns [https://{account}.blob.core.windows.net]. *)
Theorem production_precedence (env : Env) (account : string) :
  no_public_base env = true ->
  production_signal env = true ->
  emulator_signal env = true ->
  is_azure_production env = true /\
  blob_base_url env account = "https://" +:+ account +:+ ".blob.core.windows.net".
Proof.
  intros Hno Hprod _. split.
  - rewrite is_azure_production_signal. exact Hprod.
  - rewrite blob_base_url_derived by exact Hno.
    rewrite Hprod, andb_false_r. reflexivity.
Qed.

Lemma production_precedence_witness :
  is_azure_production marked_emulator_env = true /\
  blob_base_url marked_emulator_env "devstoreaccount1"
    = "https://" +:+ "devstoreaccount1" +:+ ".blob.core.windows.net".
Proof. apply (production_precedence marked_emulator_env "devstoreaccount1"); reflexivity. Defined.

(** C5, as stated, fails: the emulator base is not the bare loopback
    origin, the account name follows it as a path segment. *)
Lemma emulator_base_has_account_path :
  no_public_base Sim.azurite_env = true /\
  emulator_signal Sim.azurite_env = true /\
  production_signal Sim.azurite_env = false /\
  blob_base_url Sim.azurite_env "devstoreaccount1" = "http://127.0.0.1:10000/devstoreaccount1" /\
  blob_base_url Sim.azurite_env "devstoreaccount1" <> "http://127.0.0.1:10000".
Proof. repeat split; try (vm_compute; reflexivity). vm_compute. discriminate. Qed.

(** C5 (amended): with no public-base override, an emulator signal and no
    production signal, the resolver classifies as emulator and the base URL
    is [http://127.0.0.1:{port}/{account}], the port read from
    [AZURITE_BLOB_HOST_PORT] and [10000] when that variable is unset. *)
Theorem emulator_base_url (env : Env) (account : string) :
  no_public_base env = true ->
  emulator_signal env = true ->
  production_signal env = false ->
  is_azurite env = true /\
  is_azure_production env = false /\
  blob_base_url env account =
    "http://127.0.0.1:" +:+ default "10000" (getenv env "AZURITE_BLOB_HOST_PORT")
      +:+ "/" +:+ account.
Proof.
  intros Hno Hemu Hprod. repeat split.
  - rewrite is_azurite_signal. exact Hemu.
  - rewrite is_azure_production_signal. exact Hprod.
  - rewrite blob_base_url_derived by exact Hno.
    rewrite Hemu, Hprod. reflexivity.
Qed.

Lemma emulator_base_url_witness :
  is_azurite Sim.azurite_env = true /\
  is_azure_production Sim.azurite_env = false /\
  blob_base_url Sim.azurite_env "devstoreaccount1" =
    "http://127.0.0.1:" +:+ default "10000" (getenv Sim.azurite_env "AZURITE_BLOB_HOST_PORT")
      +:+ "/" +:+ "devstoreaccount1".
Proof. apply (emulator_base_url Sim.azurite_env "devstoreaccount1"); reflexivity. Defined.

Lemma local_http_not_stripped (rest : string) :
  targets_local ("http://" +:+ rest) = true -> PyStr.rstrip "/" rest <> "".
Proof.
  unfold targets_local. intros H.
  assert (PyStr.contains "localhost" rest = true \/ PyStr.contains "127.0.0.1" rest = true) as [Hc|Hc].
  { apply orb_true_iff in H as [H|H]; [left | right]; exact H. }
  - eapply contains_rstrip_nonempty; [|exact Hc]. discriminate.
  - eapply contains_rstrip_nonempty; [|exact Hc]. discriminate.
Qed.

Lemma blob_base_url_override (env : Env) (account public_base : string) :
  getenv env "PUBLIC_BLOB_BASE_URL" = Some public_base ->
  public_base <> "" ->
  blob_base_url env account = override_url public_base account.
Proof.
  intros Hget Hne. unfold blob_base_url, override_url, targets_local. rewrite Hget.
  assert (truthy (Some public_base) = true) as ->
    by (destruct public_base; [contradiction | reflexivity]).
  cbn [default from_option id].
  destruct (PyStr.startswith public_base "http://"), (PyStr.startswith public_base "https://"),
    (PyStr.contains "localhost" public_base), (PyStr.contains "127.0.0.1" public_base);
    reflexivity.
Qed.

(** What the override branch does, by the code's own test: without a
    scheme the override is put under [https://]; an [http://] override in
    which neither [localhost] nor [127.0.0.1] occurs has its scheme
    replaced by [https://]; an [http://] override in which one occurs is
    kept on [http://]; an [https://] override is kept.  Trailing slashes
    go and the account name follows. *)
Theorem public_base_override (env : Env) (account public_base : string) :
  getenv env "PUBLIC_BLOB_BASE_URL" = Some public_base ->
  public_base <> "" ->
  let url := blob_base_url env account in
  (PyStr.startswith public_base "http://" = false ->
   PyStr.startswith public_base "https://" = false ->
   url = "https://" +:+ PyStr.rstrip "/" public_base +:+ "/" +:+ account) /\
  (forall rest, public_base = "http://" +:+ rest ->
     targets_local public_base = false ->
     url = PyStr.rstrip "/" ("https://" +:+ rest) +:+ "/" +:+ account /\
     PyStr.startswith url "https:" = true) /\
  (forall rest, public_base = "http://" +:+ rest ->
     targets_local public_base = true ->
     url = PyStr.rstrip "/" public_base +:+ "/" +:+ account /\
     PyStr.startswith url "http://" = true) /\
  (PyStr.startswith public_base "https://" = true ->
   url = PyStr.rstrip "/" public_base +:+ "/" +:+ account).
Proof.
  intros Hget Hne url. subst url.
  rewrite (blob_base_url_override env account public_base Hget Hne).
  unfold override_url. split; [|split; [|split]].
  - intros -> ->. reflexivity.
  - intros rest -> Hlocal. rewrite startswith_app, Hlocal. cbn [orb negb andb].
    rewrite replace1_prefix by apply startswith_app.
    change (PyStr.drop (String.length "http://") ("http://" +:+ rest)) with rest.
    split; [reflexivity|].
    change ("https://" +:+ rest)
      with (String "h" (String "t" (String "t" (String "p" (String "s" (String ":" ("//" +:+ rest))))))).
    rewrite !rstrip_cons_ne by discriminate. reflexivity.
  - intros rest -> Hlocal. pose proof (local_http_not_stripped rest Hlocal) as Hrest.
    rewrite startswith_app, Hlocal. cbn [orb negb andb].
    split; [reflexivity|].
    change ("http://" +:+ rest)
      with (String "h" (String "t" (String "t" (String "p" (String ":" (String "/" (String "/" rest))))))).
    rewrite !rstrip_cons_ne by discriminate.
    rewrite (rstrip_cons_nonempty "/" "/" (String "/" rest)), (rstrip_cons_nonempty "/" "/" rest);
      [reflexivity | exact Hrest | rewrite rstrip_cons_nonempty by exact Hrest; discriminate].
  - intros Hs. rewrite Hs, orb_true_r. cbn [negb].
    apply startswith_inv in Hs. rewrite Hs. reflexivity.
Qed.

Lemma public_base_override_witness :
  let url := blob_base_url custom_host_env "acct" in
  url = PyStr.rstrip "/" ("https://" +:+ "cdn.example.com/") +:+ "/" +:+ "acct" /\
  PyStr.startswith url "https:" = true.
Proof.
  refine (proj1 (proj2 (public_base_override custom_host_env "acct" "http://cdn.example.com/" _ _))
            "cdn.example.com/" _ _); [reflexivity | discriminate | reflexivity | reflexivity].
Defined.

(** C6, at the failing inputs: whether an [http://] override is kept or
    upgraded is decided by a search for the texts [localhost] and
    [127.0.0.1] anywhere in it, not by the host it names.  An override
    whose host merely begins with [127.0.0.1] stays on [http://] although
    it names no loopback host, and overrides naming the IPv6 loopback
    address or [LOCALHOST] are moved to [https://] although they do. *)
Theorem override_locality_is_textual :
  (PyStr.startswith "http://127.0.0.1.evil.example.com" "http://" = true /\
   url_host "http://127.0.0.1.evil.example.com" = "127.0.0.1.evil.example.com" /\
   loopback_host (url_host "http://127.0.0.1.evil.example.com") = false /\
   blob_base_url {[ "PUBLIC_BLOB_BASE_URL" := "http://127.0.0.1.evil.example.com" ]} "acct"
     = "http://127.0.0.1.evil.example.com/acct") /\
  (url_host "http://[::1]:10000" = "[::1]" /\
   loopback_host (url_host "http://[::1]:10000") = true /\
   blob_base_url {[ "PUBLIC_BLOB_BASE_URL" := "http://[::1]:10000" ]} "acct"
     = "https://[::1]:10000/acct") /\
  (url_host "http://LOCALHOST:10000" = "LOCALHOST" /\
   loopback_host (url_host "http://LOCALHOST:10000") = true /\
   blob_base_url {[ "PUBLIC_BLOB_BASE_URL" := "http://LOCALHOST:10000" ]} "acct"
     = "https://LOCALHOST:10000/acct").
Proof. vm_compute. repeat split. Qed.

Example public_base_override_examples :
  blob_base_url custom_host_env "acct" = "https://cdn.example.com/acct" /\
  blob_base_url {[ "PUBLIC_BLOB_BASE_URL" := "http://localhost:10000/" ]} "acct" = "http://localhost:10000/acct" /\
  blob_base_url {[ "PUBLIC_BLOB_BASE_URL" := "cdn.example.com" ]} "acct" = "https://cdn.example.com/acct" /\
  blob_base_url {[ "PUBLIC_BLOB_BASE_URL" := "https://cdn.example.com" ]} "acct" = "https://cdn.example.com/acct".
Proof. vm_compute. auto. Qed.

(** ** Effects *)

Lemma bind_ok {W A B} (m : M W A) (k : A -> M W B) (w w' : W) (a : A) :
  m w = (Ok a, w') -> bind m k w = k a w'.
Proof. unfold bind. intros ->. reflexivity. Qed.

Lemma bind_raise {W A B} (m : M W A) (k : A -> M W B) (w w' : W) (e : PyExn) :
  m w = (Raise e, w') -> bind m k w = (Raise e, w').
Proof. unfold bind. intros ->. reflexivity. Qed.

Lemma try_except_ok {W A} (body : M W A) (h : PyExn -> M W A) (w w' : W) (a : A) :
  body w = (Ok a, w') -> try_except body h w = (Ok a, w').
Proof. unfold try_except. intros ->. reflexivity. Qed.

Lemma try_except_raise {W A} (body : M W A) (h : PyExn -> M W A) (w w' : W) (e : PyExn) :
  body w = (Raise e, w') -> try_except body h w = h e w'.
Proof. unfold try_except. intros ->. reflexivity. Qed.

(** A [try] whose handler returns cannot raise. *)
Lemma try_except_swallow {W} (body : M W unit) (w : W) :
  exists w', try_except body (fun _ => ret tt) w = (Ok tt, w').
Proof.
  unfold try_except, ret. destruct (body w) as [[[]|e] w']; eauto.
Qed.

Lemma bsc_ok {W} (sdk : Sdk W) (env : Env) (svc : BlobServiceClient) (w : W) :
  from_connection_string sdk (getenv env "AZURE_STORAGE_CONNECTION_STRING") = Ok svc ->
  bsc sdk env w = (Ok svc, w).
Proof. unfold bsc, lift. intros ->. reflexivity. Qed.

(** ** Container provisioning *)

Lemma ensure_container_exists_ok {W} (sdk : Sdk W) (env : Env) (container_name : string)
    (svc : BlobServiceClient) (w : W) :
  from_connection_string sdk (getenv env "AZURE_STORAGE_CONNECTION_STRING") = Ok svc ->
  exists w', ensure_container_exists sdk env container_name w
             = (Ok (get_container_client svc container_name), w').
Proof.
  intros Hsvc. unfold ensure_container_exists.
  rewrite (bind_ok _ _ w w svc) by (apply bsc_ok, Hsvc).
  set (cc := get_container_client svc container_name).
  set (publish := if is_azurite env
                  then try_except (set_container_access_policy sdk cc "blob") (fun _ => ret tt)
                  else ret tt).
  assert (Hpub : forall v, exists v', publish v = (Ok tt, v')).
  { intros v. subst publish. destruct (is_azurite env).
    - apply try_except_swallow.
    - unfold ret. eauto. }
  unfold bind at 1. unfold try_except at 1.
  destruct (bind (get_container_properties sdk cc) (fun _ => publish) w) as [[[]|e] w1] eqn:Hfirst.
  - unfold ret. eauto.
  - destruct (try_except_swallow (bind (create_container sdk cc) (fun _ => publish)) w1)
      as [w2 ->].
    unfold ret. eauto.
Qed.

(** C8: once the storage client can be built from the configuration,
    [ensure_container_exists] returns the handle of the named container in
    every world and for every behaviour of the three backend calls; a
    second caller running after any interference by the first is in the
    same position. *)
Theorem ensure_container_exists_never_raises {W} (sdk : Sdk W) (env : Env)
    (container_name : string) (svc : BlobServiceClient) :
  from_connection_string sdk (getenv env "AZURE_STORAGE_CONNECTION_STRING") = Ok svc ->
  forall (w : W) (interference : W -> W),
  exists w1 w2,
    ensure_container_exists sdk env container_name w
      = (Ok (get_container_client svc container_name), w1) /\
    ensure_container_exists sdk env container_name (interference w1)
      = (Ok (get_container_client svc container_name), w2).
Proof.
  intros Hsvc w interference.
  destruct (ensure_container_exists_ok sdk env container_name svc w Hsvc) as [w1 H1].
  destruct (ensure_container_exists_ok sdk env container_name svc (interference w1) Hsvc) as [w2 H2].
  exists w1, w2. split; assumption.
Qed.

Lemma ensure_container_exists_never_raises_witness :
  exists w1 w2,
    ensure_container_exists Sim.racing_sdk Sim.azurite_env "uploads" Sim.empty_account
      = (Ok (get_container_client (mkService "devstoreaccount1") "uploads"), w1) /\
    ensure_container_exists Sim.racing_sdk Sim.azurite_env "uploads" (Sim.go_offline w1)
      = (Ok (get_container_client (mkService "devstoreaccount1") "uploads"), w2).
Proof.
  apply (ensure_container_exists_never_raises Sim.racing_sdk Sim.azurite_env "uploads"
           (mkService "devstoreaccount1")).
  reflexivity.
Defined.

(** The race itself: the read finds no container, another client creates
    it, and our own creation is refused; the handle is returned all the
    same. *)
Example ensure_container_exists_lost_race :
  get_container_properties Sim.racing_sdk
    (get_container_client (mkService "devstoreaccount1") "uploads") Sim.empty_account
    = (Raise Sim.container_not_found, Sim.mkWorld true 1700000000000000 ["uploads"] ∅) /\
  create_container Sim.racing_sdk
    (get_container_client (mkService "devstoreaccount1") "uploads")
    (Sim.mkWorld true 1700000000000000 ["uploads"] ∅)
    = (Raise Sim.container_exists, Sim.mkWorld true 1700000000000000 ["uploads"] ∅) /\
  ensure_container_exists Sim.racing_sdk Sim.azurite_env "uploads" Sim.empty_account
    = (Ok (get_container_client (mkService "devstoreaccount1") "uploads"),
       Sim.mkWorld true 1700000000000000 ["uploads"] ∅).
Proof. vm_compute. auto. Qed.

(** ** Signed URLs *)

(** C7: a signed-URL request with the default lifetime asks the SDK for a
    token that expires five minutes after the current UTC time, carries the
    read permission and nothing else, and names exactly the requested
    container and blob; the URL returned is
    [{base URL}/{container}/{quoted blob name}?{token}]. *)
Theorem make_sas_default_ttl {W} (sdk : Sdk W) (env : Env) (container blob : string)
    (svc : BlobServiceClient) (w : W) (token : string) :
  from_connection_string sdk (getenv env "AZURE_STORAGE_CONNECTION_STRING") = Ok svc ->
  getenv env "SAS_EXPIRY_MINUTES" = None ->
  let now := utcnow sdk w in
  let args := default_sas_args env svc container blob now in
  generate_blob_sas sdk args = Ok token ->
  make_sas sdk env container blob None w
    = (Ok (blob_base_url env (account_name svc) +:+ "/" +:+ container +:+ "/"
             +:+ UrlQuote.quote blob +:+ "?" +:+ token), w) /\
  sas_expiry args = now + 5 * 60 * 1000000 /\
  now <= sas_expiry args <= now + 5 * 60 * 1000000 /\
  sas_permission args = mkPerm true false false false false false false false false false false false /\
  sas_container_name args = container /\
  sas_blob_name args = blob.
Proof.
  intros Hsvc Httl now args Htoken.
  split; [|repeat split; unfold args, default_sas_args, timedelta_minutes; cbn; lia].
  unfold make_sas.
  rewrite (bind_ok _ _ w w svc) by (apply bsc_ok, Hsvc).
  unfold getenv_default at 1. unfold getenv in Httl. rewrite Httl.
  cbn [default from_option id].
  change (py_int sdk "5") with (Some 5).
  unfold bind, ret, gets, lift.
  fold now. fold (connection_descriptor env). fold (resolved_account_key env).
  fold (default_sas_args env svc container blob now). fold args.
  rewrite Htoken. reflexivity.
Qed.

Lemma make_sas_default_ttl_witness :
  make_sas Sim.sdk Sim.azurite_env "uploads" "annual report.pdf" None Sim.empty_account
    = (Ok (blob_base_url Sim.azurite_env "devstoreaccount1" +:+ "/" +:+ "uploads" +:+ "/"
             +:+ UrlQuote.quote "annual report.pdf" +:+ "?"
             +:+ "se=1700000300000000&sp=r&sr=b&sig=0"), Sim.empty_account) /\
  sas_expiry (default_sas_args Sim.azurite_env (mkService "devstoreaccount1") "uploads"
                "annual report.pdf" 1700000000000000)
    = 1700000000000000 + 5 * 60 * 1000000 /\
  1700000000000000
    <= sas_expiry (default_sas_args Sim.azurite_env (mkService "devstoreaccount1") "uploads"
                     "annual report.pdf" 1700000000000000)
    <= 1700000000000000 + 5 * 60 * 1000000 /\
  sas_permission (default_sas_args Sim.azurite_env (mkService "devstoreaccount1") "uploads"
                    "annual report.pdf" 1700000000000000)
    = mkPerm true false false false false false false false false false false false /\
  sas_container_name (default_sas_args Sim.azurite_env (mkService "devstoreaccount1") "uploads"
                        "annual report.pdf" 1700000000000000) = "uploads" /\
  sas_blob_name (default_sas_args Sim.azurite_env (mkService "devstoreaccount1") "uploads"
                   "annual report.pdf" 1700000000000000) = "annual report.pdf".
Proof.
  apply (make_sas_default_ttl Sim.sdk Sim.azurite_env "uploads" "annual report.pdf"
           (mkService "devstoreaccount1") Sim.empty_account
           "se=1700000300000000&sp=r&sr=b&sig=0");
    reflexivity.
Defined.

Example make_sas_url :
  (make_sas Sim.sdk Sim.azurite_env "uploads" "annual report.pdf" None Sim.empty_account).1
    = Ok "http://127.0.0.1:10000/devstoreaccount1/uploads/annual%20report.pdf?se=1700000300000000&sp=r&sr=b&sig=0".
Proof. vm_compute. reflexivity. Qed.

(** The Get-URL operation wraps the URL of [make_sas], issued for the
    configured container with the default lifetime. *)
Lemma api_get_blob_url_issues {W} (sdk : Sdk W) (env : Env) (blob_name url : string) (w w' : W) :
  make_sas sdk env (container_name_env env) blob_name None w = (Ok url, w') ->
  api_get_blob_url sdk env blob_name w = (Ok (jsonify (JObj [("url", JStr url)])), w').
Proof.
  intros H. unfold api_get_blob_url. apply try_except_ok.
  unfold api_get_blob_url_try. rewrite (bind_ok _ _ _ _ _ H). reflexivity.
Qed.

(** ** Upload *)

(** C10: the content type an upload stores is the extension guess whenever
    there is one, whatever the client sent; the client's multipart content
    type is used only without a guess, and [application/octet-stream] when
    that is missing too.  It is the content type handed to [upload_blob]. *)
Theorem upload_content_type_precedence {W} (sdk : Sdk W) (env : Env) (f : FileStorage)
    (f_filename : string) (svc : BlobServiceClient) (w : W) :
  filename f = Some f_filename ->
  f_filename <> "" ->
  from_connection_string sdk (getenv env "AZURE_STORAGE_CONNECTION_STRING") = Ok svc ->
  let stored := upload_content_type sdk f_filename (file_content_type f) in
  (forall g, guess_type sdk f_filename = Some g -> g <> "" -> stored = g) /\
  (forall c, truthy (guess_type sdk f_filename) = false ->
             file_content_type f = Some c -> c <> "" -> stored = c) /\
  (truthy (guess_type sdk f_filename) = false ->
   truthy (file_content_type f) = false -> stored = "application/octet-stream") /\
  exists w1,
    ensure_container_exists sdk env (container_name_env env) w
      = (Ok (get_container_client svc (container_name_env env)), w1) /\
    api_upload_blob sdk env (Some f) w =
      match upload_blob sdk (get_blob_client svc (container_name_env env) f_filename) f true
              (mkContentSettings (Some stored) None None None) w1 with
      | (Ok _, w2) =>
          (Ok (jsonify (JObj [("message", JStr "Uploaded successfully");
                              ("filename", JStr f_filename)])), w2)
      | (Raise e, w2) => (Ok (jsonify_status (error_envelope (exn_str e)) 500), w2)
      end.
Proof.
  intros Hname Hne Hsvc stored. subst stored. unfold upload_content_type.
  split; [|split; [|split]].
  - intros g -> Hg. destruct g; [contradiction | reflexivity].
  - intros c -> -> Hc. destruct c; [contradiction | reflexivity].
  - intros -> Hc. cbn [negb]. destruct (file_content_type f) as [[|]|]; [reflexivity | discriminate | reflexivity].
  - destruct (ensure_container_exists_ok sdk env (container_name_env env) svc w Hsvc) as [w1 Hens].
    exists w1. split; [exact Hens|].
    unfold api_upload_blob. rewrite Hname.
    assert (truthy (Some f_filename) = true) as ->
      by (destruct f_filename; [contradiction | reflexivity]).
    cbn [negb]. unfold api_upload_blob_try, try_except, error_response. rewrite Hname.
    cbn [default from_option id].
    rewrite (bind_ok _ _ w w svc) by (apply bsc_ok, Hsvc).
    rewrite (bind_ok _ _ w w1 _ Hens).
    unfold bind, ret, upload_content_type.
    destruct (upload_blob sdk _ f true _ w1) as [[[]|e] w2]; reflexivity.
Qed.

Lemma upload_content_type_precedence_witness :
  upload_content_type Sim.sdk "report.pdf" (Some "text/plain") = "application/pdf".
Proof.
  refine (proj1 (upload_content_type_precedence Sim.sdk Sim.azurite_env
                   (mkFile (Some "report.pdf") (Some "text/plain") "%PDF") "report.pdf"
                   (mkService "devstoreaccount1") Sim.empty_account _ _ _)
            "application/pdf" _ _); [reflexivity | discriminate | reflexivity | reflexivity | discriminate].
Defined.

Example upload_content_type_examples :
  upload_content_type Sim.sdk "report.pdf" (Some "text/plain") = "application/pdf" /\
  upload_content_type Sim.sdk "notes" (Some "text/markdown") = "text/markdown" /\
  upload_content_type Sim.sdk "notes" None = "application/octet-stream" /\
  upload_content_type Sim.sdk "notes" (Some "") = "application/octet-stream".
Proof. vm_compute. auto. Qed.

(** ** Metadata update *)

(** C2, at the failing input: a request whose JSON body is an array makes
    [request.json.get] raise inside the [try] block, and the catch-all
    answers 500; the 400 branch is never reached. *)
Theorem update_metadata_array_body_is_500 {W} (sdk : Sdk W) (env : Env) (blob_name : string)
    (items : list json) (w : W) :
  api_update_metadata sdk env blob_name (Ok (JArr items)) w
    = (Ok (jsonify_status (error_envelope "'list' object has no attribute 'get'") 500), w).
Proof. reflexivity. Qed.

(** No body other than a JSON object gets past the first line of the
    handler. *)
Lemma update_metadata_non_object_body {W} (sdk : Sdk W) (env : Env) (blob_name : string)
    (j : json) (w : W) :
  (forall members, j <> JObj members) ->
  exists r, api_update_metadata sdk env blob_name (Ok j) w = (Ok r, w) /\ status r = 500.
Proof.
  intros Hj. destruct j; try (eexists; split; reflexivity).
  exfalso. eapply Hj. reflexivity.
Qed.

(** The shape check itself: an object body whose [metadata] member is not
    an object is answered 400 before any storage call. *)
Lemma update_metadata_non_dict_member {W} (sdk : Sdk W) (env : Env) (blob_name : string)
    (members : list (string * json)) (v : json) (w : W) :
  members_get "metadata" members = Some v ->
  (forall ms, v <> JObj ms) ->
  api_update_metadata sdk env blob_name (Ok (JObj members)) w
    = (Ok (jsonify_status (error_envelope "Metadata must be a dictionary") 400), w).
Proof.
  intros Hget Hv.
  unfold api_update_metadata, api_update_metadata_try, try_except, bind, lift, ret.
  rewrite Hget. cbn [default from_option id].
  destruct v; try reflexivity. exfalso. eapply Hv. reflexivity.
Qed.

(** ** Exceptions at the operation boundary *)

(** C3, as stated, fails: with the storage service unreachable the
    properties read raises a [ServiceRequestError], and Get-by-name and View
    answer 404. *)
Lemma unreachable_backend_is_404 :
  get_blob_properties Sim.sdk
    (get_blob_client (mkService "devstoreaccount1") "uploads" "report.pdf") Sim.offline_account
    = (Raise (mkExn "ServiceRequestError" "Cannot connect to host 127.0.0.1:10000"),
       Sim.offline_account) /\
  api_get_blob Sim.sdk Sim.azurite_env "report.pdf" Sim.offline_account
    = (Ok (jsonify_status (error_envelope "Cannot connect to host 127.0.0.1:10000") 404),
       Sim.offline_account) /\
  api_view_blob Sim.sdk Sim.azurite_env "report.pdf" Sim.offline_account
    = (Ok (jsonify_status (error_envelope "Cannot connect to host 127.0.0.1:10000") 404),
       Sim.offline_account) /\
  status (jsonify_status (error_envelope "Cannot connect to host 127.0.0.1:10000") 404) <> 500.
Proof. repeat split; try (vm_compute; reflexivity). vm_compute. discriminate. Qed.

Lemma maps_exceptions_to_try_except {W} (code : Z) (body : M W Response) :
  maps_exceptions_to code body (try_except body (error_response code)).
Proof. intros w e w' H. rewrite (try_except_raise _ _ _ _ _ H). reflexivity. Qed.

(** C3 (amended): every exception raised inside an operation's [try] block
    is answered with the envelope [{"error": str(e)}] under that
    operation's one status: 500 for List, Upload, Update-metadata, Delete
    and Get-URL, 404 for Get-by-name and View, whatever the exception is.
    In particular a failing properties read gives 404 on Get-by-name and
    View. *)
Theorem exceptions_map_to_one_status {W} (sdk : Sdk W) (env : Env) :
  maps_exceptions_to 500 (api_list_blobs_try sdk env) (api_list_blobs sdk env) /\
  (forall f, truthy (filename f) = true ->
     maps_exceptions_to 500 (api_upload_blob_try sdk env f) (api_upload_blob sdk env (Some f))) /\
  (forall b j, maps_exceptions_to 500 (api_update_metadata_try sdk env b j)
                 (api_update_metadata sdk env b j)) /\
  (forall b, maps_exceptions_to 500 (api_delete_blob_try sdk env b) (api_delete_blob sdk env b)) /\
  (forall b, maps_exceptions_to 500 (api_get_blob_url_try sdk env b) (api_get_blob_url sdk env b)) /\
  (forall b, maps_exceptions_to 404 (api_get_blob_try sdk env b) (api_get_blob sdk env b)) /\
  (forall b, maps_exceptions_to 404 (api_view_blob_try sdk env b) (api_view_blob sdk env b)) /\
  (forall b svc w e w',
     from_connection_string sdk (getenv env "AZURE_STORAGE_CONNECTION_STRING") = Ok svc ->
     get_blob_properties sdk (get_blob_client svc (container_name_env env) b) w = (Raise e, w') ->
     api_get_blob sdk env b w = (Ok (jsonify_status (error_envelope (exn_str e)) 404), w') /\
     api_view_blob sdk env b w = (Ok (jsonify_status (error_envelope (exn_str e)) 404), w')).
Proof.
  repeat match goal with |- _ /\ _ => split end;
    try (intros; apply maps_exceptions_to_try_except).
  - intros f Hf. unfold api_upload_blob. rewrite Hf. apply maps_exceptions_to_try_except.
  - intros b svc w e w' Hsvc Hprops. split.
    + apply maps_exceptions_to_try_except. unfold api_get_blob_try.
      rewrite (bind_ok _ _ w w svc) by (apply bsc_ok, Hsvc).
      apply bind_raise, Hprops.
    + apply maps_exceptions_to_try_except. unfold api_view_blob_try.
      rewrite (bind_ok _ _ w w svc) by (apply bsc_ok, Hsvc).
      apply bind_raise, Hprops.
Qed.

Lemma exceptions_map_to_one_status_witness :
  api_get_blob Sim.sdk Sim.azurite_env "report.pdf" Sim.offline_account
    = (Ok (jsonify_status (error_envelope (exn_str Sim.unreachable)) 404), Sim.offline_account) /\
  api_view_blob Sim.sdk Sim.azurite_env "report.pdf" Sim.offline_account
    = (Ok (jsonify_status (error_envelope (exn_str Sim.unreachable)) 404), Sim.offline_account).
Proof.
  refine (proj2 (proj2 (proj2 (proj2 (proj2 (proj2 (proj2
            (exceptions_map_to_one_status Sim.sdk Sim.azurite_env)))))))
            "report.pdf" (mkService "devstoreaccount1") Sim.offline_account Sim.unreachable
            Sim.offline_account _ _); reflexivity.
Defined.

(** No handler lets an exception escape. *)
Lemma try_except_total {W} (code : Z) (body : M W Response) (w : W) :
  exists r w', try_except body (error_response code) w = (Ok r, w').
Proof.
  unfold try_except, error_response, ret. destruct (body w) as [[r|e] w']; eauto.
Qed.

(** ** View *)

Lemma has_newline_app (a b : string) :
  has_newline (a +:+ b) = has_newline a || has_newline b.
Proof.
  induction a as [|c a IH]; [reflexivity|].
  change (String c a +:+ b) with (String c (a +:+ b)).
  cbn [has_newline]. rewrite IH, !orb_assoc. reflexivity.
Qed.

Lemma has_newline_quote (s : string) : has_newline (UrlQuote.quote s) = false.
Proof.
  induction s as [|c s IH]; [reflexivity|].
  transitivity (has_newline (UrlQuote.quote s)); [|exact IH].
  destruct c as [[] [] [] [] [] [] [] []]; reflexivity.
Qed.

Lemma has_newline_pretty_N_go (x : N) (s : string) :
  has_newline s = false -> has_newline (pretty_N_go x s) = false.
Proof.
  revert s. induction (N.lt_wf_0 x) as [x _ IH]; intros s Hs.
  destruct (decide (x = 0)%N) as [->|Hx]; [exact Hs|].
  rewrite pretty_N_go_step by lia. apply IH.
  - apply N.div_lt; lia.
  - cbn [has_newline]. rewrite Hs.
    unfold pretty_N_char. repeat case_match; reflexivity.
Qed.

(** A decimal numeral has no line break. *)
Lemma has_newline_pretty (n : Z) : has_newline (pretty n) = false.
Proof.
  assert (HN : forall p : positive, has_newline (pretty (Npos p)) = false).
  { intros p. unfold pretty, pretty_N. case_decide; [reflexivity|].
    apply has_newline_pretty_N_go. reflexivity. }
  destruct n as [|p|p]; [reflexivity | apply HN |].
  change (pretty (Zneg p)) with ("-" +:+ pretty (Npos p)).
  rewrite has_newline_app, HN. reflexivity.
Qed.

Lemma has_newline_content_disposition (blob_name : string) :
  has_newline (content_disposition blob_name) = has_newline (basename blob_name).
Proof.
  unfold content_disposition. rewrite !has_newline_app, has_newline_quote.
  destruct (has_newline (basename blob_name)); reflexivity.
Qed.

(** Building the response of View fails exactly when the media type or the
    display name holds a line break. *)
Lemma view_response_eq (props : BlobProperties) (blob_name content_type : string)
    (chunks : list string) :
  view_response props blob_name content_type chunks =
    if has_newline content_type || has_newline (basename blob_name)
    then Raise header_value_error
    else Ok (view_headers props blob_name content_type chunks).
Proof.
  unfold view_response, view_headers, streaming_response, and_then, assign_header.
  fold (content_disposition blob_name). rewrite has_newline_content_disposition.
  destruct (has_newline content_type); [reflexivity|].
  destruct (has_newline (basename blob_name)); [reflexivity|].
  cbn [orb]. change (has_newline "public, max-age=3600") with false.
  change (has_newline "nosniff") with false. cbv iota.
  destruct (size props) as [n|]; [|reflexivity].
  destruct (n =? 0); [reflexivity|]. rewrite has_newline_pretty. reflexivity.
Qed.

Lemma view_response_ok (props : BlobProperties) (blob_name content_type : string)
    (chunks : list string) (r : Response) :
  view_response props blob_name content_type chunks = Ok r ->
  r = view_headers props blob_name content_type chunks.
Proof.
  rewrite view_response_eq.
  destruct (has_newline content_type || has_newline (basename blob_name)); congruence.
Qed.

Lemma view_response_fixed_part (props : BlobProperties) (blob_name content_type : string)
    (chunks : list string) (r : Response) :
  view_response props blob_name content_type chunks = Ok r ->
  status r = 200 /\ mimetype r = content_type /\ body r = StreamBody chunks /\
  get_header "Content-Disposition" (headers r) = Some (content_disposition blob_name) /\
  get_header "Cache-Control" (headers r) = Some "public, max-age=3600".
Proof.
  intros H. apply view_response_ok in H as ->. unfold view_headers.
  destruct (size props) as [n|]; [destruct (n =? 0)|]; repeat split; reflexivity.
Qed.

Lemma view_response_content_length (props : BlobProperties) (blob_name content_type : string)
    (chunks : list string) (r : Response) (n : Z) :
  view_response props blob_name content_type chunks = Ok r ->
  size props = Some n -> n <> 0 ->
  get_header "Content-Length" (headers r) = Some (pretty n).
Proof.
  intros H Hsize Hn. apply view_response_ok in H as ->. unfold view_headers. rewrite Hsize.
  destruct (Z.eqb_spec n 0); [contradiction | reflexivity].
Qed.

Lemma view_response_no_content_length (props : BlobProperties) (blob_name content_type : string)
    (chunks : list string) (r : Response) :
  view_response props blob_name content_type chunks = Ok r ->
  size props = Some 0 \/ size props = None ->
  get_header "Content-Length" (headers (add_security_headers r)) = None.
Proof.
  intros H Hsize. apply view_response_ok in H as ->.
  destruct Hsize as [Hsize|Hsize]; unfold view_headers; rewrite Hsize; reflexivity.
Qed.

(** C9, at the failing input: an existing blob of zero bytes, whose size
    the backend reports as 0, is served with status 200, the inline
    disposition and the cache header, but with no [Content-Length]. *)
Theorem view_empty_blob_has_no_content_length :
  exists props r w,
    get_blob_properties Sim.sdk
      (get_blob_client (mkService "devstoreaccount1") "uploads" "empty.txt")
      account_with_empty_blob = (Ok props, account_with_empty_blob) /\
    size props = Some 0 /\
    served (api_view_blob Sim.sdk Sim.azurite_env "empty.txt") account_with_empty_blob
      = (Ok r, w) /\
    status r = 200 /\
    get_header "Cache-Control" (headers r) = Some "public, max-age=3600" /\
    get_header "Content-Length" (headers r) = None.
Proof. do 3 eexists. vm_compute. repeat split; reflexivity. Qed.

(** A blob that does not exist is answered 404. *)
Lemma view_missing_blob_is_404 {W} (sdk : Sdk W) (env : Env) (blob_name : string)
    (svc : BlobServiceClient) (w w' : W) (e : PyExn) :
  from_connection_string sdk (getenv env "AZURE_STORAGE_CONNECTION_STRING") = Ok svc ->
  get_blob_properties sdk (get_blob_client svc (container_name_env env) blob_name) w
    = (Raise e, w') ->
  api_view_blob sdk env blob_name w
    = (Ok (jsonify_status (error_envelope (exn_str e)) 404), w').
Proof.
  intros Hsvc Hprops. unfold api_view_blob.
  rewrite (try_except_raise _ _ w w' e); [reflexivity|].
  unfold api_view_blob_try.
  rewrite (bind_ok _ _ w w svc) by (apply bsc_ok, Hsvc).
  apply bind_raise, Hprops.
Qed.

(** ** Content-type resolution *)

Lemma list_blob_item_type (container_name : string) (blob : BlobProperties) :
  exists members,
    list_blob_item container_name blob = JObj members /\
    members_get "type" members = Some (JStr (list_content_type blob)) /\
    members_get "contentType" members = Some (JStr (list_content_type blob)).
Proof. eexists. split; [reflexivity|]. split; reflexivity. Qed.

Lemma get_blob_item_type (container_name blob_name : string) (props : BlobProperties) :
  exists members,
    get_blob_item container_name blob_name props = JObj members /\
    members_get "type" members = Some (JStr (get_type props)) /\
    members_get "contentType" members = Some (JStr (get_contentType props)).
Proof. eexists. split; [reflexivity|]. split; reflexivity. Qed.

Lemma upload_content_type_truthy {W} (sdk : Sdk W) (f_filename : string)
    (f_content_type : option string) :
  truthy (Some (upload_content_type sdk f_filename f_content_type)) = true.
Proof.
  unfold upload_content_type.
  destruct (guess_type sdk f_filename) as [[|]|]; cbn; try reflexivity;
    destruct f_content_type as [[|]|]; reflexivity.
Qed.

(** C1, as stated, fails: for a blob without [mime_type] metadata and
    without a content-settings content type, List and Get report the empty
    string where View and the four-step precedence give the extension
    guess. *)
Lemma list_and_get_stop_after_two_steps :
  list_content_type untyped_report = "" /\
  get_type untyped_report = "" /\
  view_content_type Sim.sdk untyped_report "report.pdf" = Ok "application/pdf" /\
  four_step_content_type Sim.sim_guess_type untyped_report "report.pdf" = "application/pdf" /\
  list_content_type untyped_report
    <> four_step_content_type Sim.sim_guess_type untyped_report "report.pdf".
Proof. repeat split; try (vm_compute; reflexivity). vm_compute. discriminate. Qed.

(** C1 (amended): the three operations share the first two steps, the
    [mime_type] metadata key and else the content-settings content type.
    List and the [type] member of Get stop there and report the empty
    string when both are empty; View goes on to the extension guess and
    [application/octet-stream].  Whenever one of the two steps yields a
    type the three agree; so a blob without [mime_type] metadata whose
    content type was stored by Upload resolves to that stored type on all
    three. *)
Theorem content_type_resolution {W} (sdk : Sdk W) (props : BlobProperties)
    (cs : ContentSettings) (blob_name : string) :
  content_settings props = Some cs ->
  let mime_type := default ∅ (metadata props) !! "mime_type" in
  let two_step := por mime_type (content_type cs) in
  list_content_type props = por_str two_step "" /\
  get_type props = por_str two_step "" /\
  view_content_type sdk props blob_name
    = Ok (four_step_content_type (guess_type sdk) props blob_name) /\
  (truthy two_step = true ->
   four_step_content_type (guess_type sdk) props blob_name = list_content_type props) /\
  (truthy two_step = false ->
   four_step_content_type (guess_type sdk) props blob_name
     = por_str (guess_type sdk blob_name) "application/octet-stream") /\
  (forall f_content_type,
     truthy mime_type = false ->
     content_type cs = Some (upload_content_type sdk blob_name f_content_type) ->
     list_content_type props = upload_content_type sdk blob_name f_content_type /\
     get_type props = upload_content_type sdk blob_name f_content_type /\
     view_content_type sdk props blob_name
       = Ok (upload_content_type sdk blob_name f_content_type)).
Proof.
  intros Hcs mime_type two_step.
  assert (Hlist : list_content_type props = por_str two_step "").
  { unfold list_content_type. rewrite Hcs. subst two_step. fold mime_type.
    destruct mime_type as [[|]|], (content_type cs) as [[|]|]; reflexivity. }
  assert (Hget : get_type props = por_str two_step "").
  { unfold get_type, cs_get. rewrite Hcs. reflexivity. }
  assert (Hview : view_content_type sdk props blob_name
                  = Ok (four_step_content_type (guess_type sdk) props blob_name)).
  { unfold view_content_type, four_step_content_type, cs_get. rewrite Hcs. fold mime_type.
    destruct mime_type as [[|]|], (content_type cs) as [[|]|],
      (guess_type sdk blob_name) as [[|]|]; reflexivity. }
  assert (Hagree : truthy two_step = true ->
            four_step_content_type (guess_type sdk) props blob_name = por_str two_step "").
  { unfold four_step_content_type, cs_get. rewrite Hcs. fold mime_type. subst two_step.
    destruct mime_type as [[|]|], (content_type cs) as [[|]|];
      cbn; intros; try discriminate; reflexivity. }
  repeat match goal with |- _ /\ _ => split end; try assumption.
  - rewrite Hlist. exact Hagree.
  - unfold four_step_content_type, cs_get. rewrite Hcs. fold mime_type. subst two_step.
    destruct mime_type as [[|]|], (content_type cs) as [[|]|];
      cbn; intros; try discriminate; reflexivity.
  - intros f_content_type Hmime Hstored.
    pose proof (upload_content_type_truthy sdk blob_name f_content_type) as Htruthy.
    assert (Htwo : two_step = Some (upload_content_type sdk blob_name f_content_type)).
    { subst two_step. unfold por. rewrite Hmime. exact Hstored. }
    assert (Hval : por_str two_step "" = upload_content_type sdk blob_name f_content_type).
    { rewrite Htwo. apply por_str_some_empty. }
    rewrite Hlist, Hget, Hview, Hagree, Hval by (rewrite Htwo; exact Htruthy).
    repeat split.
Qed.

Lemma content_type_resolution_witness :
  let uploaded := mkBlobProperties "report.pdf" (Some 4) None None (Some ∅)
                    (Some (mkContentSettings (Some "application/pdf") None None None))
                    (Some "BlockBlob") None in
  list_content_type uploaded = upload_content_type Sim.sdk "report.pdf" (Some "text/plain") /\
  get_type uploaded = upload_content_type Sim.sdk "report.pdf" (Some "text/plain") /\
  view_content_type Sim.sdk uploaded "report.pdf"
    = Ok (upload_content_type Sim.sdk "report.pdf" (Some "text/plain")).
Proof.
  intros uploaded.
  refine (proj2 (proj2 (proj2 (proj2 (proj2
            (content_type_resolution Sim.sdk uploaded
               (mkContentSettings (Some "application/pdf") None None None) "report.pdf" _)))))
            (Some "text/plain") _ _); reflexivity.
Defined.

(** The round trip of the specification's example on the in-memory
    account: [report.pdf] uploaded with a misleading client content type
    is reported as [application/pdf] by List, Get and View. *)
Example report_pdf_round_trip :
  let w := (api_upload_blob Sim.sdk Sim.azurite_env
              (Some (mkFile (Some "report.pdf") (Some "text/plain") "%PDF"))
              Sim.empty_account).2 in
  (exists r w', api_view_blob Sim.sdk Sim.azurite_env "report.pdf" w = (Ok r, w')
                /\ mimetype r = "application/pdf") /\
  (exists members w',
     api_get_blob Sim.sdk Sim.azurite_env "report.pdf" w = (Ok (jsonify (JObj members)), w')
     /\ members_get "type" members = Some (JStr "application/pdf")) /\
  (exists members w',
     api_list_blobs Sim.sdk Sim.azurite_env w
       = (Ok (jsonify (JObj [("blobs", JArr [JObj members])])), w')
     /\ members_get "type" members = Some (JStr "application/pdf")).
Proof.
  cbv zeta. split; [|split]; do 2 eexists; vm_compute; split; reflexivity.
Qed.

(** The [contentType] member of Get reads the two sources in the other
    order than its [type] member. *)
Example get_contentType_order :
  let props := mkBlobProperties "scan" (Some 1) None None
                 (Some {[ "mime_type" := "image/png" ]})
                 (Some (mkContentSettings (Some "application/pdf") None None None))
                 (Some "BlockBlob") None in
  get_type props = "image/png" /\ get_contentType props = "application/pdf".
Proof. vm_compute. auto. Qed.

(** ** Connection strings *)

Lemma no_char_app (c : ascii) (a b : string) :
  no_char c (a +:+ b) = no_char c a && no_char c b.
Proof.
  induction a as [|x a IH]; [reflexivity|].
  change (String x a +:+ b) with (String x (a +:+ b)).
  cbn [no_char]. rewrite IH, andb_assoc. reflexivity.
Qed.

Lemma split_nonempty (sep : ascii) (s : string) : PyStr.split sep s <> [].
Proof.
  destruct s as [|c r]; cbn [PyStr.split]; [discriminate|].
  destruct (decide (c = sep)); [discriminate|].
  destruct (PyStr.split sep r); discriminate.
Qed.

Lemma split_no_sep (sep : ascii) (s : string) :
  no_char sep s = true -> PyStr.split sep s = [s].
Proof.
  induction s as [|c r IH]; [reflexivity|].
  cbn [no_char PyStr.split]. intros H. apply andb_true_iff in H as [Hc Hr].
  apply negb_true_iff, bool_decide_eq_false in Hc.
  destruct (decide (c = sep)); [contradiction|].
  rewrite (IH Hr). reflexivity.
Qed.

(** Splitting distributes over a separator. *)
Lemma split_app_sep (sep : ascii) (a b : string) :
  PyStr.split sep (a +:+ String sep b) = PyStr.split sep a ++ PyStr.split sep b.
Proof.
  induction a as [|c a IH].
  - change ("" +:+ String sep b) with (String sep b). cbn [PyStr.split].
    destruct (decide (sep = sep)); [reflexivity | congruence].
  - change (String c a +:+ String sep b) with (String c (a +:+ String sep b)).
    cbn [PyStr.split]. rewrite IH.
    destruct (decide (c = sep)); [reflexivity|].
    pose proof (split_nonempty sep a) as Hne.
    destruct (PyStr.split sep a); [contradiction | reflexivity].
Qed.

Lemma split1_no_sep (sep : ascii) (s : string) :
  no_char sep s = true -> PyStr.split1 sep s = (s, None).
Proof.
  induction s as [|c r IH]; [reflexivity|].
  cbn [no_char PyStr.split1]. intros H. apply andb_true_iff in H as [Hc Hr].
  apply negb_true_iff, bool_decide_eq_false in Hc.
  destruct (decide (c = sep)); [contradiction|].
  rewrite (IH Hr). reflexivity.
Qed.

Lemma split1_first_sep (sep : ascii) (k v : string) :
  no_char sep k = true -> PyStr.split1 sep (k +:+ String sep v) = (k, Some v).
Proof.
  induction k as [|c k IH].
  - intros _. change ("" +:+ String sep v) with (String sep v). cbn [PyStr.split1].
    destruct (decide (sep = sep)); [reflexivity | congruence].
  - cbn [no_char]. intros H. apply andb_true_iff in H as [Hc Hk].
    apply negb_true_iff, bool_decide_eq_false in Hc.
    change (String c k +:+ String sep v) with (String c (k +:+ String sep v)).
    cbn [PyStr.split1]. destruct (decide (c = sep)); [contradiction|].
    rewrite (IH Hk). reflexivity.
Qed.

Lemma parse_conn_str_fold (conn : string) :
  _parse_conn_str conn = foldl conn_str_step ∅ (PyStr.split ";" conn).
Proof. reflexivity. Qed.

(** Appending one more [;]-separated part runs one more step. *)
Lemma parse_conn_str_snoc (prefix part : string) :
  no_char ";" part = true ->
  _parse_conn_str (prefix +:+ ";" +:+ part) = conn_str_step (_parse_conn_str prefix) part.
Proof.
  intros Hpart. rewrite !parse_conn_str_fold.
  change (";" +:+ part) with (String ";" part).
  rewrite split_app_sep, foldl_app, (split_no_sep _ _ Hpart). reflexivity.
Qed.

(** A [key=value] part appended to a connection string sets that key and
    leaves the others alone; the value may itself contain [=], as a base64
    account key does.  A part without [=], such as the empty one after a
    trailing [;], changes nothing. *)
Theorem parse_conn_str_append (prefix k v junk : string) :
  no_char ";" k = true -> no_char "=" k = true -> no_char ";" v = true ->
  no_char ";" junk = true -> no_char "=" junk = true ->
  _parse_conn_str (prefix +:+ ";" +:+ k +:+ "=" +:+ v) = <[k := v]> (_parse_conn_str prefix) /\
  _parse_conn_str (prefix +:+ ";" +:+ k +:+ "=" +:+ v) !! k = Some v /\
  (forall k', k' <> k ->
     _parse_conn_str (prefix +:+ ";" +:+ k +:+ "=" +:+ v) !! k' = _parse_conn_str prefix !! k') /\
  _parse_conn_str (prefix +:+ ";" +:+ junk) = _parse_conn_str prefix.
Proof.
  intros Hk1 Hk2 Hv Hj1 Hj2.
  assert (Hset : _parse_conn_str (prefix +:+ ";" +:+ k +:+ "=" +:+ v)
                 = <[k := v]> (_parse_conn_str prefix)).
  { rewrite parse_conn_str_snoc.
    - unfold conn_str_step. change ("=" +:+ v) with (String "=" v).
      rewrite (split1_first_sep _ _ _ Hk2). reflexivity.
    - change ("=" +:+ v) with (String "=" v). rewrite no_char_app. cbn [no_char].
      rewrite Hk1, Hv. reflexivity. }
  repeat split.
  - exact Hset.
  - rewrite Hset. apply lookup_insert_eq.
  - intros k' Hne. rewrite Hset. apply lookup_insert_ne. congruence.
  - rewrite (parse_conn_str_snoc _ _ Hj1). unfold conn_str_step.
    rewrite (split1_no_sep _ _ Hj2). reflexivity.
Qed.

Lemma parse_conn_str_append_witness :
  _parse_conn_str ("AccountName=devstoreaccount1" +:+ ";" +:+ "AccountKey" +:+ "=" +:+ "a2V5PQ==")
    !! "AccountKey" = Some "a2V5PQ==".
Proof.
  refine (proj1 (proj2 (parse_conn_str_append "AccountName=devstoreaccount1"
                          "AccountKey" "a2V5PQ==" "" _ _ _ _ _))); reflexivity.
Defined.

Lemma nonempty_app_cons (a b : string) (c : ascii) :
  PyStr.nonempty (a +:+ String c b) = true.
Proof. destruct a; reflexivity. Qed.

Lemma account_key_lookup (parts : gmap string string) (v : string) :
  v <> "" -> parts !! "AccountKey" = Some v ->
  por (parts !! "AccountKey") (parts !! "accountkey") = Some v.
Proof. intros Hv ->. destruct v; [contradiction | reflexivity]. Qed.

(** The account key is read back from the connection string with its
    padding, whether or not a [;] follows it; an empty or missing
    connection string has none. *)
Theorem account_key_from_conn_str_found (prefix v : string) :
  v <> "" -> no_char ";" v = true ->
  _account_key_from_conn_str (Some (prefix +:+ ";" +:+ "AccountKey" +:+ "=" +:+ v)) = Some v /\
  _account_key_from_conn_str (Some ((prefix +:+ ";" +:+ "AccountKey" +:+ "=" +:+ v) +:+ ";"))
    = Some v /\
  _account_key_from_conn_str None = None /\
  _account_key_from_conn_str (Some "") = None.
Proof.
  intros Hv Hsemi.
  assert (Hkey : _parse_conn_str (prefix +:+ ";" +:+ "AccountKey" +:+ "=" +:+ v) !! "AccountKey"
                 = Some v).
  { rewrite parse_conn_str_snoc.
    - unfold conn_str_step. change ("=" +:+ v) with (String "=" v).
      rewrite (split1_first_sep "=" "AccountKey" v) by reflexivity. apply lookup_insert_eq.
    - change ("=" +:+ v) with (String "=" v). rewrite no_char_app. cbn [no_char].
      rewrite Hsemi. reflexivity. }
  split; [|split; [|split; reflexivity]].
  - unfold _account_key_from_conn_str, truthy.
    change (";" +:+ "AccountKey" +:+ "=" +:+ v) with (String ";" ("AccountKey" +:+ "=" +:+ v)).
    rewrite nonempty_app_cons. cbn [negb default from_option id].
    apply account_key_lookup; assumption.
  - unfold _account_key_from_conn_str, truthy.
    change ((prefix +:+ ";" +:+ "AccountKey" +:+ "=" +:+ v) +:+ ";")
      with ((prefix +:+ ";" +:+ "AccountKey" +:+ "=" +:+ v) +:+ String ";" "").
    rewrite nonempty_app_cons. cbn [negb default from_option id].
    apply account_key_lookup; [assumption|].
    change (String ";" "") with (";" +:+ "").
    rewrite parse_conn_str_snoc by reflexivity. exact Hkey.
Qed.

Lemma account_key_from_conn_str_found_witness :
  _account_key_from_conn_str
    (Some ("DefaultEndpointsProtocol=http;AccountName=devstoreaccount1" +:+ ";"
             +:+ "AccountKey" +:+ "=" +:+ "a2V5PQ==")) = Some "a2V5PQ==".
Proof.
  refine (proj1 (account_key_from_conn_str_found
                   "DefaultEndpointsProtocol=http;AccountName=devstoreaccount1" "a2V5PQ==" _ _));
    [discriminate | reflexivity].
Defined.

(** ** The scheme of the base URL *)





(** ** Response headers *)

Lemma same_header_refl (k : string) : same_header k k = true.
Proof. unfold same_header. apply bool_decide_eq_true. reflexivity. Qed.

Lemma same_header_sym (a b : string) : same_header a b = same_header b a.
Proof. unfold same_header. apply bool_decide_ext. split; congruence. Qed.

Lemma same_header_trans (a b c : string) :
  same_header a b = true -> same_header b c = true -> same_header a c = true.
Proof.
  unfold same_header. rewrite !bool_decide_eq_true. congruence.
Qed.

Lemma get_header_filter_other (q k : string) (hs : list (string * string)) :
  same_header q k = false ->
  get_header q (filter (fun kv => same_header k kv.1 = false) hs) = get_header q hs.
Proof.
  intros Hqk. induction hs as [|[k' v'] r IH]; [reflexivity|].
  rewrite filter_cons. cbn [fst get_header].
  destruct (decide (same_header k k' = false)) as [Hkk'|Hkk'].
  - cbn [get_header]. rewrite IH. reflexivity.
  - apply not_false_is_true in Hkk'. rewrite IH.
    destruct (same_header q k') eqn:Hqk'; [|reflexivity].
    rewrite (same_header_sym k k') in Hkk'.
    rewrite (same_header_trans q k' k Hqk' Hkk') in Hqk. discriminate.
Qed.

Lemma get_header_set_header (q k v : string) (hs : list (string * string)) :
  get_header q (set_header k v hs) = if same_header q k then Some v else get_header q hs.
Proof.
  induction hs as [|[k' v'] r IH]; [reflexivity|].
  cbn [set_header]. destruct (same_header k k') eqn:Hkk'.
  - cbn [get_header]. destruct (same_header q k) eqn:Hqk; [reflexivity|].
    rewrite (get_header_filter_other q k r Hqk).
    destruct (same_header q k') eqn:Hqk'; [|reflexivity].
    rewrite (same_header_sym k k') in Hkk'.
    rewrite (same_header_trans q k' k Hqk' Hkk') in Hqk. discriminate.
  - cbn [get_header]. rewrite IH.
    destruct (same_header q k') eqn:Hqk'; [|reflexivity].
    destruct (same_header q k) eqn:Hqk; [|reflexivity].
    rewrite (same_header_sym q k) in Hqk.
    rewrite (same_header_trans k q k' Hqk Hqk') in Hkk'. discriminate.
Qed.

Lemma count_header_cons (q k v : string) (hs : list (string * string)) :
  count_header q ((k, v) :: hs)
  = ((if same_header q k then 1 else 0) + count_header q hs)%nat.
Proof.
  unfold count_header. rewrite filter_cons. cbn [fst].
  destruct (decide (same_header q k = true)) as [->|H]; [reflexivity|].
  apply not_true_is_false in H. rewrite H. reflexivity.
Qed.

Lemma count_header_filter_same (k : string) (hs : list (string * string)) :
  count_header k (filter (fun kv => same_header k kv.1 = false) hs) = 0%nat.
Proof.
  induction hs as [|[k' v'] r IH]; [reflexivity|].
  rewrite filter_cons. cbn [fst].
  destruct (decide (same_header k k' = false)) as [H|H]; [|exact IH].
  rewrite count_header_cons, H, IH. reflexivity.
Qed.

Lemma count_header_filter_other (q k : string) (hs : list (string * string)) :
  same_header q k = false ->
  count_header q (filter (fun kv => same_header k kv.1 = false) hs) = count_header q hs.
Proof.
  intros Hqk. induction hs as [|[k' v'] r IH]; [reflexivity|].
  rewrite filter_cons. cbn [fst]. rewrite count_header_cons.
  destruct (decide (same_header k k' = false)) as [H|H].
  - rewrite count_header_cons, IH. reflexivity.
  - apply not_false_is_true in H. rewrite IH.
    destruct (same_header q k') eqn:Hqk'; [|reflexivity].
    rewrite (same_header_sym k k') in H.
    rewrite (same_header_trans q k' k Hqk' H) in Hqk. discriminate.
Qed.

Lemma count_header_set_same (k v : string) (hs : list (string * string)) :
  count_header k (set_header k v hs) = 1%nat.
Proof.
  induction hs as [|[k' v'] r IH].
  - cbn [set_header]. rewrite count_header_cons, same_header_refl. reflexivity.
  - cbn [set_header]. destruct (same_header k k') eqn:Hkk'.
    + rewrite count_header_cons, same_header_refl, count_header_filter_same. reflexivity.
    + rewrite count_header_cons, Hkk', IH. reflexivity.
Qed.

Lemma count_header_set_other (q k v : string) (hs : list (string * string)) :
  same_header q k = false ->
  count_header q (set_header k v hs) = count_header q hs.
Proof.
  intros Hqk. induction hs as [|[k' v'] r IH].
  - cbn [set_header]. rewrite count_header_cons, Hqk. reflexivity.
  - cbn [set_header]. destruct (same_header k k') eqn:Hkk'.
    + rewrite !count_header_cons, Hqk, (count_header_filter_other q k r Hqk).
      destruct (same_header q k') eqn:Hqk'; [|reflexivity].
      rewrite (same_header_sym k k') in Hkk'.
      rewrite (same_header_trans q k' k Hqk' Hkk') in Hqk. discriminate.
    + rewrite !count_header_cons, IH. reflexivity.
Qed.

(** Assigning a header, [response.headers[k] = v]: the name then reads the
    new value under any spelling of its case and occurs exactly once, even
    if it was there several times; every other name reads what it read
    before and occurs as often as before. *)
Theorem set_header_replaces (q k v : string) (hs : list (string * string)) :
  get_header k (set_header k v hs) = Some v /\
  count_header k (set_header k v hs) = 1%nat /\
  (same_header q k = true -> get_header q (set_header k v hs) = Some v) /\
  (same_header q k = false ->
   get_header q (set_header k v hs) = get_header q hs /\
   count_header q (set_header k v hs) = count_header q hs).
Proof.
  repeat split.
  - rewrite get_header_set_header, same_header_refl. reflexivity.
  - apply count_header_set_same.
  - intros H. rewrite get_header_set_header, H. reflexivity.
  - rewrite get_header_set_header, H. reflexivity.
  - apply count_header_set_other, H.
Qed.

Lemma set_header_replaces_witness :
  get_header "content-type" (set_header "Content-Type" "text/html"
                               [("content-type", "a"); ("X", "b"); ("CONTENT-TYPE", "c")])
  = Some "text/html".
Proof.
  refine (proj1 (proj2 (proj2 (set_header_replaces "content-type" "Content-Type" "text/html"
                                 [("content-type", "a"); ("X", "b"); ("CONTENT-TYPE", "c")]))) _).
  reflexivity.
Defined.

Lemma get_header_with_header (q k v : string) (r : Response) :
  get_header q (headers (with_header k v r))
  = if same_header q k then Some v else get_header q (headers r).
Proof. unfold with_header. cbn [headers]. apply get_header_set_header. Qed.

(** The [after_request] hook leaves status, media type and body alone,
    forces its five headers to their fixed values whatever the handler had
    set under those names, and leaves every other header as the handler
    set it. *)
Theorem add_security_headers_effect (response : Response) :
  let r := add_security_headers response in
  status r = status response /\ mimetype r = mimetype response /\ body r = body response /\
  get_header "X-Content-Type-Options" (headers r) = Some "nosniff" /\
  get_header "X-Frame-Options" (headers r) = Some "DENY" /\
  get_header "X-XSS-Protection" (headers r) = Some "1; mode=block" /\
  get_header "Strict-Transport-Security" (headers r)
    = Some "max-age=31536000; includeSubDomains" /\
  get_header "Content-Security-Policy" (headers r)
    = Some "default-src 'self'; script-src 'self' 'unsafe-inline' 'unsafe-eval'; style-src 'self' 'unsafe-inline'; img-src 'self' data: https:; font-src 'self' data:; connect-src 'self' https:; frame-ancestors 'none'; upgrade-insecure-requests;" /\
  (forall k, not_security_header k = true ->
             get_header k (headers r) = get_header k (headers response)).
Proof.
  cbv zeta. unfold add_security_headers.
  repeat match goal with |- _ /\ _ => split end; try reflexivity.
  - rewrite !get_header_with_header. reflexivity.
  - rewrite !get_header_with_header. reflexivity.
  - rewrite !get_header_with_header. reflexivity.
  - rewrite !get_header_with_header. reflexivity.
  - rewrite !get_header_with_header. reflexivity.
  - intros k Hk. unfold not_security_header, security_header_names in Hk.
    cbn [forallb] in Hk. rewrite !andb_true_iff, !negb_true_iff in Hk.
    destruct Hk as (H1 & H2 & H3 & H4 & H5 & _).
    rewrite !get_header_with_header, H1, H2, H3, H4, H5. reflexivity.
Qed.

Lemma add_security_headers_effect_witness :
  get_header "cache-control"
    (headers (add_security_headers
                (mkResponse 200 "text/plain"
                   [("Cache-Control", "public, max-age=3600"); ("x-frame-options", "SAMEORIGIN")]
                   (StreamBody []))))
  = get_header "cache-control"
      (headers (mkResponse 200 "text/plain"
                  [("Cache-Control", "public, max-age=3600"); ("x-frame-options", "SAMEORIGIN")]
                  (StreamBody []))).
Proof.
  refine (proj2 (proj2 (proj2 (proj2 (proj2 (proj2 (proj2 (proj2
            (add_security_headers_effect
               (mkResponse 200 "text/plain"
                  [("Cache-Control", "public, max-age=3600"); ("x-frame-options", "SAMEORIGIN")]
                  (StreamBody []))))))))))
            "cache-control" _); reflexivity.
Defined.

Lemma count_header_with_header_other (q k v : string) (r : Response) :
  same_header q k = false ->
  count_header q (headers (with_header k v r)) = count_header q (headers r).
Proof. unfold with_header. cbn [headers]. apply count_header_set_other. Qed.

Lemma count_header_with_header_same (k v : string) (r : Response) :
  count_header k (headers (with_header k v r)) = 1%nat.
Proof. unfold with_header. cbn [headers]. apply count_header_set_same. Qed.

(** After the hook each of its five headers occurs exactly once, however
    many times the handler had set it. *)
Theorem add_security_headers_no_duplicates (response : Response) (k : string) :
  k ∈ security_header_names ->
  count_header k (headers (add_security_headers response)) = 1%nat.
Proof.
  unfold security_header_names, add_security_headers. intros Hk.
  repeat (apply elem_of_cons in Hk as [->|Hk]);
    [ .. | apply elem_of_nil in Hk; contradiction ];
    repeat first
      [ apply count_header_with_header_same
      | rewrite count_header_with_header_other by reflexivity ].
Qed.

Lemma add_security_headers_no_duplicates_witness :
  count_header "X-Content-Type-Options"
    (headers (add_security_headers
                (mkResponse 200 "text/plain"
                   [("X-Content-Type-Options", "nosniff"); ("x-content-type-options", "nosniff")]
                   (StreamBody [])))) = 1%nat.
Proof.
  apply (add_security_headers_no_duplicates
           (mkResponse 200 "text/plain"
              [("X-Content-Type-Options", "nosniff"); ("x-content-type-options", "nosniff")]
              (StreamBody [])) "X-Content-Type-Options").
  apply list_elem_of_In. vm_compute. auto.
Defined.

(** ** Metadata replacement *)

Lemma members_get_snoc (k k' : string) (v : json) (ms : list (string * json)) :
  members_get k (ms ++ [(k', v)]) = if decide (k' = k) then Some v else members_get k ms.
Proof.
  induction ms as [|[k0 v0] r IH].
  - cbn [app members_get]. reflexivity.
  - cbn [app members_get]. rewrite IH. destruct (decide (k' = k)); reflexivity.
Qed.

Lemma string_metadata_snoc {W} (sdk : Sdk W) (k : string) (v : json) (ms : list (string * json)) :
  string_metadata sdk (ms ++ [(k, v)]) = <[k := py_str sdk v]> (string_metadata sdk ms).
Proof. unfold string_metadata. rewrite foldl_app. reflexivity. Qed.

Lemma string_metadata_lookup {W} (sdk : Sdk W) (ms : list (string * json)) (k : string) :
  string_metadata sdk ms !! k = py_str sdk <$> members_get k ms.
Proof.
  induction ms as [|[k' v] ms IH] using rev_ind.
  - cbn. apply lookup_empty.
  - rewrite string_metadata_snoc, members_get_snoc, lookup_insert.
    destruct (decide (k' = k)); [reflexivity | exact IH].
Qed.

(** A well-formed update replaces the blob's metadata by the request's
    [metadata] object with every value turned into a string: each key
    reads as [str] of the value the parsed JSON holds for it, and keys the
    request does not name are absent.  The answer is 200 when the backend
    accepts the replacement and 500, never 200, when it raises, as for a
    blob that does not exist. *)
Theorem update_metadata_replaces {W} (sdk : Sdk W) (env : Env) (blob_name : string)
    (members md : list (string * json)) (svc : BlobServiceClient) (w : W) :
  from_connection_string sdk (getenv env "AZURE_STORAGE_CONNECTION_STRING") = Ok svc ->
  members_get "metadata" members = Some (JObj md) ->
  (forall k, string_metadata sdk md !! k = py_str sdk <$> members_get k md) /\
  api_update_metadata sdk env blob_name (Ok (JObj members)) w =
    match set_blob_metadata sdk (get_blob_client svc (container_name_env env) blob_name)
            (string_metadata sdk md) w with
    | (Ok _, w') => (Ok (jsonify (JObj [("message", JStr "Metadata updated successfully")])), w')
    | (Raise e, w') => (Ok (jsonify_status (error_envelope (exn_str e)) 500), w')
    end.
Proof.
  intros Hsvc Hmd. split; [apply string_metadata_lookup|].
  unfold api_update_metadata, api_update_metadata_try, try_except, error_response.
  unfold bind at 1. unfold lift. unfold bind at 1. unfold ret at 1. rewrite Hmd.
  cbn [default from_option id].
  rewrite (bind_ok _ _ w w svc) by (apply bsc_ok, Hsvc).
  unfold bind, ret.
  destruct (set_blob_metadata sdk _ _ w) as [[[]|e] w']; reflexivity.
Qed.

Lemma update_metadata_replaces_witness :
  api_update_metadata Sim.sdk Sim.azurite_env "missing.txt"
    (Ok (JObj [("metadata", JObj [("pages", JInt 3)])])) Sim.empty_account =
    match set_blob_metadata Sim.sdk
            (get_blob_client (mkService "devstoreaccount1")
               (container_name_env Sim.azurite_env) "missing.txt")
            (string_metadata Sim.sdk [("pages", JInt 3)]) Sim.empty_account with
    | (Ok _, w') => (Ok (jsonify (JObj [("message", JStr "Metadata updated successfully")])), w')
    | (Raise e, w') => (Ok (jsonify_status (error_envelope (exn_str e)) 500), w')
    end.
Proof.
  refine (proj2 (update_metadata_replaces Sim.sdk Sim.azurite_env "missing.txt"
                   [("metadata", JObj [("pages", JInt 3)])] [("pages", JInt 3)]
                   (mkService "devstoreaccount1") Sim.empty_account _ _)); reflexivity.
Defined.

(** A JSON object without a [metadata] member is not rejected: it is read
    as the empty mapping, so the request wipes the blob's metadata. *)
Theorem update_metadata_without_member_clears {W} (sdk : Sdk W) (env : Env)
    (blob_name : string) (members : list (string * json)) (svc : BlobServiceClient) (w : W) :
  from_connection_string sdk (getenv env "AZURE_STORAGE_CONNECTION_STRING") = Ok svc ->
  members_get "metadata" members = None ->
  api_update_metadata sdk env blob_name (Ok (JObj members)) w =
    match set_blob_metadata sdk (get_blob_client svc (container_name_env env) blob_name) ∅ w with
    | (Ok _, w') => (Ok (jsonify (JObj [("message", JStr "Metadata updated successfully")])), w')
    | (Raise e, w') => (Ok (jsonify_status (error_envelope (exn_str e)) 500), w')
    end.
Proof.
  intros Hsvc Hmd.
  unfold api_update_metadata, api_update_metadata_try, try_except, error_response.
  unfold bind at 1. unfold lift. unfold bind at 1. unfold ret at 1. rewrite Hmd.
  cbn [default from_option id].
  rewrite (bind_ok _ _ w w svc) by (apply bsc_ok, Hsvc).
  unfold bind, ret. change (string_metadata sdk []) with (∅ : gmap string string).
  destruct (set_blob_metadata sdk _ _ w) as [[[]|e] w']; reflexivity.
Qed.

Lemma update_metadata_without_member_clears_witness :
  api_update_metadata Sim.sdk Sim.azurite_env "report.pdf" (Ok (JObj [])) Sim.empty_account =
    match set_blob_metadata Sim.sdk
            (get_blob_client (mkService "devstoreaccount1")
               (container_name_env Sim.azurite_env) "report.pdf") ∅ Sim.empty_account with
    | (Ok _, w') => (Ok (jsonify (JObj [("message", JStr "Metadata updated successfully")])), w')
    | (Raise e, w') => (Ok (jsonify_status (error_envelope (exn_str e)) 500), w')
    end.
Proof.
  apply (update_metadata_without_member_clears Sim.sdk Sim.azurite_env "report.pdf" []
           (mkService "devstoreaccount1") Sim.empty_account); reflexivity.
Defined.

(** ** Upload validation *)

(** An upload without a [file] part, or whose part has no filename, is
    answered 400 with its own message and the storage is not touched. *)
Theorem upload_rejected_before_storage {W} (sdk : Sdk W) (env : Env) (f : FileStorage) (w : W) :
  truthy (filename f) = false ->
  api_upload_blob sdk env None w
    = (Ok (jsonify_status (error_envelope "No file provided") 400), w) /\
  api_upload_blob sdk env (Some f) w
    = (Ok (jsonify_status (error_envelope "Empty filename") 400), w).
Proof.
  intros Hf. split; [reflexivity|]. unfold api_upload_blob. rewrite Hf. reflexivity.
Qed.

Lemma upload_rejected_before_storage_witness :
  api_upload_blob Sim.sdk Sim.azurite_env None Sim.offline_account
    = (Ok (jsonify_status (error_envelope "No file provided") 400), Sim.offline_account) /\
  api_upload_blob Sim.sdk Sim.azurite_env (Some (mkFile (Some "") (Some "text/plain") "x"))
    Sim.offline_account
    = (Ok (jsonify_status (error_envelope "Empty filename") 400), Sim.offline_account).
Proof.
  apply (upload_rejected_before_storage Sim.sdk Sim.azurite_env
           (mkFile (Some "") (Some "text/plain") "x") Sim.offline_account).
  reflexivity.
Defined.

(** ** Statuses *)

Lemma error_envelope_is_error_body (msg : string) (code : Z) :
  is_error_body (jsonify_status (error_envelope msg) code).
Proof. exists [("error", JStr msg)], msg. split; reflexivity. Qed.

(** A [try] block whose normal results are 200 responses, under a
    catch-all of status [code]. *)
Lemma try_except_answers {W} (code : Z) (body : M W Response) (codes : list Z) :
  200 ∈ codes -> code ∈ codes ->
  (forall w w' r, body w = (Ok r, w') -> status r = 200) ->
  answers (try_except body (error_response code)) codes.
Proof.
  intros H200 Hcode Hbody w. unfold try_except.
  destruct (body w) as [[r|e] w'] eqn:Hrun.
  - exists r, w'. pose proof (Hbody _ _ _ Hrun) as Hr.
    split; [reflexivity|]. split; [rewrite Hr; exact H200 | left; exact Hr].
  - eexists _, w'. split; [reflexivity|]. split; [exact Hcode|].
    right. apply error_envelope_is_error_body.
Qed.

Ltac run_body H :=
  unfold bind, ret, lift, gets in H;
  repeat match type of H with
         | context [match ?x with _ => _ end] => destruct x as [[?|?] ?]
         end;
  try discriminate; injection H as <- _; reflexivity.

Lemma api_list_blobs_try_status {W} (sdk : Sdk W) (env : Env) (w w' : W) (r : Response) :
  api_list_blobs_try sdk env w = (Ok r, w') -> status r = 200.
Proof. unfold api_list_blobs_try. intros H. run_body H. Qed.

Lemma api_get_blob_try_status {W} (sdk : Sdk W) (env : Env) (b : string) (w w' : W)
    (r : Response) :
  api_get_blob_try sdk env b w = (Ok r, w') -> status r = 200.
Proof. unfold api_get_blob_try. intros H. run_body H. Qed.

Lemma api_upload_blob_try_status {W} (sdk : Sdk W) (env : Env) (f : FileStorage) (w w' : W)
    (r : Response) :
  api_upload_blob_try sdk env f w = (Ok r, w') -> status r = 200.
Proof. unfold api_upload_blob_try. intros H. run_body H. Qed.

Lemma api_delete_blob_try_status {W} (sdk : Sdk W) (env : Env) (b : string) (w w' : W)
    (r : Response) :
  api_delete_blob_try sdk env b w = (Ok r, w') -> status r = 200.
Proof. unfold api_delete_blob_try. intros H. run_body H. Qed.

Lemma api_get_blob_url_try_status {W} (sdk : Sdk W) (env : Env) (b : string) (w w' : W)
    (r : Response) :
  api_get_blob_url_try sdk env b w = (Ok r, w') -> status r = 200.
Proof. unfold api_get_blob_url_try. intros H. run_body H. Qed.

Lemma health_storage_try_status {W} (sdk : Sdk W) (env : Env) (rt : Runtime W) (w w' : W)
    (r : Response) :
  health_storage_try sdk env rt w = (Ok r, w') -> status r = 200.
Proof.
  unfold health_storage_try, _run_with_timeout, bind, ret. intros H.
  destruct (ensure_container_exists sdk env _ w) as [[cc|?] w1]; [|discriminate].
  destruct (signal_error rt w1); [discriminate|].
  destruct (alarm_fires rt 3 _ w1); [discriminate|].
  destruct (get_container_properties sdk cc w1) as [[?|?] ?]; [|discriminate].
  injection H as <- _. reflexivity.
Qed.

Lemma api_view_blob_try_status {W} (sdk : Sdk W) (env : Env) (b : string) (w w' : W)
    (r : Response) :
  api_view_blob_try sdk env b w = (Ok r, w') -> status r = 200.
Proof.
  unfold api_view_blob_try. intros H. unfold bind, ret, lift in H.
  repeat match type of H with
         | context [match ?x with _ => _ end] => destruct x as [[?|?] ?]
         end; try discriminate.
  all: destruct (view_content_type sdk _ b); try discriminate.
  all: match type of H with
       | context [view_response ?p ?b ?c ?d] =>
           destruct (view_response p b c d) as [r0|] eqn:Hresp; [|discriminate]
       end.
  all: injection H as <- _; eapply view_response_fixed_part; exact Hresp.
Qed.

Lemma api_update_metadata_answers {W} (sdk : Sdk W) (env : Env) (b : string) (j : Result json) :
  answers (api_update_metadata sdk env b j) [200; 400; 500].
Proof.
  intros w. unfold api_update_metadata, try_except.
  destruct (api_update_metadata_try sdk env b j w) as [[r|e] w'] eqn:Hrun.
  - exists r, w'. split; [reflexivity|].
    unfold api_update_metadata_try, bind, ret, lift, raise in Hrun.
    destruct j as [[| | | | | |members]|]; try discriminate.
    destruct (default (JObj []) (members_get "metadata" members));
      try (injection Hrun as <- _; split; [set_solver | right; apply error_envelope_is_error_body]).
    destruct (bsc sdk env w) as [[?|?] ?]; [|discriminate].
    destruct (set_blob_metadata sdk _ _ _) as [[?|?] ?]; [|discriminate].
    injection Hrun as <- _. split; [set_solver | left; reflexivity].
  - eexists _, w'. split; [reflexivity|]. split; [set_solver|].
    right. apply error_envelope_is_error_body.
Qed.

(** No handler lets an exception escape, and each answers within its own
    set of statuses: Get-by-name and View never answer 500, List, Delete
    and Get-URL never answer 404, only Upload and Update-metadata answer
    400, and the storage health check answers 200 or 503.  Every answer
    other than 200 carries a JSON body with an [error] member. *)
Theorem every_handler_answers {W} (sdk : Sdk W) (env : Env) :
  answers (api_list_blobs sdk env) [200; 500] /\
  (forall b, answers (api_get_blob sdk env b) [200; 404]) /\
  (forall f, answers (api_upload_blob sdk env f) [200; 400; 500]) /\
  (forall b j, answers (api_update_metadata sdk env b j) [200; 400; 500]) /\
  (forall b, answers (api_delete_blob sdk env b) [200; 500]) /\
  (forall b, answers (api_get_blob_url sdk env b) [200; 500]) /\
  (forall b, answers (api_view_blob sdk env b) [200; 404]) /\
  (forall rt, answers (health_storage sdk env rt) [200; 503]) /\
  answers (@health W) [200].
Proof.
  repeat match goal with |- _ /\ _ => split end.
  - apply try_except_answers; [set_solver | set_solver | apply api_list_blobs_try_status].
  - intros b. apply try_except_answers; [set_solver | set_solver | apply api_get_blob_try_status].
  - intros [f|] w.
    + unfold api_upload_blob. destruct (truthy (filename f)); cbn [negb].
      * destruct (try_except_answers 500 (api_upload_blob_try sdk env f) [200; 400; 500]
                    ltac:(set_solver) ltac:(set_solver)
                    (api_upload_blob_try_status sdk env f) w) as (r & w' & H).
        exists r, w'. exact H.
      * eexists _, w. split; [reflexivity|]. split; [set_solver|].
        right. apply error_envelope_is_error_body.
    + eexists _, w. split; [reflexivity|]. split; [set_solver|].
      right. apply error_envelope_is_error_body.
  - intros b j. apply api_update_metadata_answers.
  - intros b. apply try_except_answers; [set_solver | set_solver | apply api_delete_blob_try_status].
  - intros b. apply try_except_answers; [set_solver | set_solver | apply api_get_blob_url_try_status].
  - intros b. apply try_except_answers; [set_solver | set_solver | apply api_view_blob_try_status].
  - intros rt w. unfold health_storage, try_except.
    destruct (health_storage_try sdk env rt w) as [[r|e] w'] eqn:Hrun.
    + exists r, w'. pose proof (health_storage_try_status _ _ _ _ _ _ Hrun) as Hr.
      split; [reflexivity|]. split; [rewrite Hr; set_solver | left; exact Hr].
    + eexists _, w'. split; [reflexivity|]. split; [set_solver|].
      right. exists [("ok", JBool false); ("error", JStr (exn_str e))], (exn_str e).
      split; reflexivity.
  - intros w. eexists _, w. split; [reflexivity|]. split; [set_solver | left; reflexivity].
Qed.

(** ** Configuration errors *)

Lemma bsc_raise {W} (sdk : Sdk W) (env : Env) (e : PyExn) (w : W) :
  from_connection_string sdk (getenv env "AZURE_STORAGE_CONNECTION_STRING") = Raise e ->
  bsc sdk env w = (Raise e, w).
Proof. unfold bsc, lift. intros ->. reflexivity. Qed.

(** When no storage client can be built from the configuration, every
    storage operation answers with that error under its own status and
    without any backend call: 500 for List, Upload, Update-metadata, Delete
    and Get-URL, 404 for Get-by-name and View, 503 for the storage health
    check; [ensure_container_exists] itself raises. *)
Theorem configuration_error_surfaces {W} (sdk : Sdk W) (env : Env) (e : PyExn) (w : W) :
  from_connection_string sdk (getenv env "AZURE_STORAGE_CONNECTION_STRING") = Raise e ->
  let failed code := (Ok (jsonify_status (error_envelope (exn_str e)) code), w) in
  api_list_blobs sdk env w = failed 500 /\
  (forall b, api_get_blob sdk env b w = failed 404) /\
  (forall f, truthy (filename f) = true -> api_upload_blob sdk env (Some f) w = failed 500) /\
  (forall b members md,
     members_get "metadata" members = Some (JObj md) ->
     api_update_metadata sdk env b (Ok (JObj members)) w = failed 500) /\
  (forall b, api_delete_blob sdk env b w = failed 500) /\
  (forall b, api_get_blob_url sdk env b w = failed 500) /\
  (forall b, api_view_blob sdk env b w = failed 404) /\
  (forall rt, health_storage sdk env rt w
     = (Ok (jsonify_status (JObj [("ok", JBool false); ("error", JStr (exn_str e))]) 503), w)) /\
  (forall c, ensure_container_exists sdk env c w = (Raise e, w)).
Proof.
  intros Hcfg failed. pose proof (bsc_raise sdk env e w Hcfg) as Hbsc.
  assert (Hens : forall c, ensure_container_exists sdk env c w = (Raise e, w)).
  { intros c. unfold ensure_container_exists. apply bind_raise, Hbsc. }
  subst failed. repeat match goal with |- _ /\ _ => split end.
  - unfold api_list_blobs. rewrite (try_except_raise _ _ w w e); [reflexivity|].
    apply bind_raise, Hbsc.
  - intros b. unfold api_get_blob. rewrite (try_except_raise _ _ w w e); [reflexivity|].
    apply bind_raise, Hbsc.
  - intros f Hf. unfold api_upload_blob. rewrite Hf. cbn [negb].
    rewrite (try_except_raise _ _ w w e); [reflexivity|].
    unfold api_upload_blob_try. apply bind_raise, Hbsc.
  - intros b members md Hmd. unfold api_update_metadata.
    rewrite (try_except_raise _ _ w w e); [reflexivity|].
    unfold api_update_metadata_try.
    unfold bind at 1. unfold lift. unfold bind at 1. unfold ret at 1. rewrite Hmd.
    cbn [default from_option id]. apply bind_raise, Hbsc.
  - intros b. unfold api_delete_blob. rewrite (try_except_raise _ _ w w e); [reflexivity|].
    apply bind_raise, Hbsc.
  - intros b. unfold api_get_blob_url. rewrite (try_except_raise _ _ w w e); [reflexivity|].
    unfold api_get_blob_url_try. apply bind_raise. unfold make_sas. apply bind_raise, Hbsc.
  - intros b. unfold api_view_blob. rewrite (try_except_raise _ _ w w e); [reflexivity|].
    apply bind_raise, Hbsc.
  - intros rt. unfold health_storage. rewrite (try_except_raise _ _ w w e); [reflexivity|].
    unfold health_storage_try. apply bind_raise, Hens.
  - exact Hens.
Qed.

Lemma configuration_error_surfaces_witness :
  api_list_blobs Sim.sdk ∅ Sim.empty_account
  = (Ok (jsonify_status
           (error_envelope "Connection string is either blank or malformed.") 500),
     Sim.empty_account).
Proof.
  refine (proj1 (configuration_error_surfaces Sim.sdk ∅
                   (mkExn "ValueError" "Connection string is either blank or malformed.")
                   Sim.empty_account _)).
  reflexivity.
Defined.

(** ** Storage health *)

(** With a client at hand the storage health check provisions the container
    and then reads its properties once more under a three-second alarm.
    It answers 200 with the container name exactly when the signal handler
    can be installed, the read returns before the alarm and the read
    succeeds.  Otherwise it answers 503: with the error of [signal.signal]
    (as in a thread other than the main one, where the read is never
    made), with [operation timed out], or with the read's own error, so a
    container that could not be created shows here although provisioning
    swallowed the failure. *)
Theorem health_storage_reports {W} (sdk : Sdk W) (env : Env) (rt : Runtime W)
    (svc : BlobServiceClient) (w : W) :
  from_connection_string sdk (getenv env "AZURE_STORAGE_CONNECTION_STRING") = Ok svc ->
  let cc := get_container_client svc (container_name_env env) in
  let unavailable msg :=
    jsonify_status (JObj [("ok", JBool false); ("error", JStr msg)]) 503 in
  exists w1,
    ensure_container_exists sdk env (container_name_env env) w = (Ok cc, w1) /\
    health_storage sdk env rt w =
      match signal_error rt w1 with
      | Some e => (Ok (unavailable (exn_str e)), w1)
      | None =>
          match alarm_fires rt 3 (get_container_properties sdk cc) w1 with
          | Some w2 => (Ok (unavailable "operation timed out"), w2)
          | None =>
              match get_container_properties sdk cc w1 with
              | (Ok _, w2) =>
                  (Ok (jsonify (JObj [("ok", JBool true);
                                      ("container", JStr (container_name_env env))])), w2)
              | (Raise e, w2) => (Ok (unavailable (exn_str e)), w2)
              end
          end
      end.
Proof.
  intros Hsvc cc unavailable.
  destruct (ensure_container_exists_ok sdk env (container_name_env env) svc w Hsvc) as [w1 Hens].
  exists w1. split; [exact Hens|].
  unfold health_storage, health_storage_try, try_except.
  rewrite (bind_ok _ _ w w1 _ Hens). unfold bind, ret, _run_with_timeout. fold cc.
  destruct (signal_error rt w1) as [e|]; [reflexivity|].
  destruct (alarm_fires rt 3 (get_container_properties sdk cc) w1) as [w2|]; [reflexivity|].
  destruct (get_container_properties sdk cc w1) as [[[]|e] w2]; reflexivity.
Qed.

Lemma health_storage_reports_witness :
  (exists w1,
     ensure_container_exists Sim.sdk Sim.azurite_env (container_name_env Sim.azurite_env)
       Sim.empty_account
       = (Ok (get_container_client (mkService "devstoreaccount1")
                (container_name_env Sim.azurite_env)), w1) /\
     health_storage Sim.sdk Sim.azurite_env Sim.worker_thread Sim.empty_account
       = (Ok (jsonify_status
                (JObj [("ok", JBool false);
                       ("error",
                        JStr "signal only works in main thread of the main interpreter")])
                503), w1)) /\
  (exists w1,
     ensure_container_exists Sim.sdk Sim.azurite_env (container_name_env Sim.azurite_env)
       Sim.empty_account
       = (Ok (get_container_client (mkService "devstoreaccount1")
                (container_name_env Sim.azurite_env)), w1) /\
     health_storage Sim.sdk Sim.azurite_env Sim.main_thread Sim.empty_account
       = (Ok (jsonify (JObj [("ok", JBool true);
                             ("container", JStr (container_name_env Sim.azurite_env))])), w1)).
Proof.
  assert (Hrun : ensure_container_exists Sim.sdk Sim.azurite_env
                   (container_name_env Sim.azurite_env) Sim.empty_account
                 = (Ok (get_container_client (mkService "devstoreaccount1")
                          (container_name_env Sim.azurite_env)),
                    Sim.mkWorld true 1700000000000000 ["uploads"] ∅))
    by (vm_compute; reflexivity).
  split.
  - destruct (health_storage_reports Sim.sdk Sim.azurite_env Sim.worker_thread
                (mkService "devstoreaccount1") Sim.empty_account eq_refl)
      as (w1 & Hens & Hhealth).
    exists w1. split; [exact Hens|]. rewrite Hhealth. reflexivity.
  - destruct (health_storage_reports Sim.sdk Sim.azurite_env Sim.main_thread
                (mkService "devstoreaccount1") Sim.empty_account eq_refl)
      as (w1 & Hens & Hhealth).
    exists w1. split; [exact Hens|]. rewrite Hhealth.
    rewrite Hrun in Hens. injection Hens as <-. reflexivity.
Defined.

(** The storage health check in a worker thread and in the main thread of
    the in-memory account. *)
Example health_storage_by_thread :
  (health_storage Sim.sdk Sim.azurite_env Sim.worker_thread Sim.empty_account).1
    = Ok (jsonify_status
            (JObj [("ok", JBool false);
                   ("error", JStr "signal only works in main thread of the main interpreter")])
            503) /\
  (health_storage Sim.sdk Sim.azurite_env Sim.main_thread Sim.empty_account).1
    = Ok (jsonify (JObj [("ok", JBool true); ("container", JStr "uploads")])).
Proof. vm_compute. auto. Qed.

(** ** Provisioning and the access policy *)

(** Outside the emulator [ensure_container_exists] never sets an access
    policy: it reads the properties and, only when that read fails, tries
    to create the container.  In the emulator the policy ["blob"] is set
    after a successful read or a successful creation, and nothing is set
    after a failed creation. *)
Theorem ensure_container_exists_policy {W} (sdk : Sdk W) (env : Env) (c : string)
    (svc : BlobServiceClient) (w : W) :
  from_connection_string sdk (getenv env "AZURE_STORAGE_CONNECTION_STRING") = Ok svc ->
  let cc := get_container_client svc c in
  (is_azurite env = false ->
   ensure_container_exists sdk env c w =
     match get_container_properties sdk cc w with
     | (Ok _, w1) => (Ok cc, w1)
     | (Raise _, w1) => (Ok cc, (create_container sdk cc w1).2)
     end) /\
  (is_azurite env = true ->
   ensure_container_exists sdk env c w =
     match get_container_properties sdk cc w with
     | (Ok _, w1) => (Ok cc, (set_container_access_policy sdk cc "blob" w1).2)
     | (Raise _, w1) =>
         match create_container sdk cc w1 with
         | (Ok _, w2) => (Ok cc, (set_container_access_policy sdk cc "blob" w2).2)
         | (Raise _, w2) => (Ok cc, w2)
         end
     end).
Proof.
  intros Hsvc cc. split; intros Hemu; unfold ensure_container_exists;
    rewrite (bind_ok _ _ w w svc) by (apply bsc_ok, Hsvc); rewrite Hemu; fold cc;
    unfold bind, try_except, ret.
  - destruct (get_container_properties sdk cc w) as [[[]|e] w1]; [reflexivity|].
    destruct (create_container sdk cc w1) as [[[]|e'] w2]; reflexivity.
  - destruct (get_container_properties sdk cc w) as [[[]|e] w1].
    + destruct (set_container_access_policy sdk cc "blob" w1) as [[[]|e'] w2]; reflexivity.
    + destruct (create_container sdk cc w1) as [[[]|e'] w2]; [|reflexivity].
      destruct (set_container_access_policy sdk cc "blob" w2) as [[[]|e''] w3]; reflexivity.
Qed.

Lemma ensure_container_exists_policy_witness :
  ensure_container_exists Sim.sdk marked_emulator_env "uploads" Sim.empty_account =
    match get_container_properties Sim.sdk
            (get_container_client (mkService "devstoreaccount1") "uploads") Sim.empty_account with
    | (Ok _, w1) =>
        (Ok (get_container_client (mkService "devstoreaccount1") "uploads"),
         (set_container_access_policy Sim.sdk
            (get_container_client (mkService "devstoreaccount1") "uploads") "blob" w1).2)
    | (Raise _, w1) =>
        match create_container Sim.sdk
                (get_container_client (mkService "devstoreaccount1") "uploads") w1 with
        | (Ok _, w2) =>
            (Ok (get_container_client (mkService "devstoreaccount1") "uploads"),
             (set_container_access_policy Sim.sdk
                (get_container_client (mkService "devstoreaccount1") "uploads") "blob" w2).2)
        | (Raise _, w2) => (Ok (get_container_client (mkService "devstoreaccount1") "uploads"), w2)
        end
    end.
Proof.
  refine (proj2 (ensure_container_exists_policy Sim.sdk marked_emulator_env "uploads"
                   (mkService "devstoreaccount1") Sim.empty_account _) _); reflexivity.
Defined.

(** ** Listing *)

(** A successful List answers with one item per blob the backend yields,
    in the backend's order; the listing asks for metadata, and for tags as
    well outside the emulator. *)
Theorem api_list_blobs_in_backend_order {W} (sdk : Sdk W) (env : Env)
    (svc : BlobServiceClient) (w : W) :
  from_connection_string sdk (getenv env "AZURE_STORAGE_CONNECTION_STRING") = Ok svc ->
  let cn := container_name_env env in
  let include := if is_azurite env then ["metadata"] else ["metadata"; "tags"] in
  exists w1,
    ensure_container_exists sdk env cn w = (Ok (get_container_client svc cn), w1) /\
    forall listed w2,
      list_blobs sdk (get_container_client svc cn) include w1 = (Ok listed, w2) ->
      exists items,
        api_list_blobs sdk env w = (Ok (jsonify (JObj [("blobs", JArr items)])), w2) /\
        length items = length listed /\
        forall i blob, listed !! i = Some blob ->
          exists members,
            items !! i = Some (JObj members) /\
            members_get "id" members = Some (JStr (name blob)) /\
            members_get "name" members = Some (JStr (basename (name blob))) /\
            members_get "size" members = Some (JInt (default 0 (size blob))) /\
            members_get "blob_path" members = Some (JStr (cn +:+ "/" +:+ name blob)).
Proof.
  intros Hsvc cn include.
  destruct (ensure_container_exists_ok sdk env cn svc w Hsvc) as [w1 Hens].
  exists w1. split; [exact Hens|]. intros listed w2 Hlist.
  exists (list_blob_item cn <$> listed). split; [|split].
  - unfold api_list_blobs. apply try_except_ok. unfold api_list_blobs_try.
    rewrite (bind_ok _ _ w w svc) by (apply bsc_ok, Hsvc).
    fold cn. rewrite (bind_ok _ _ w w1 _ Hens). fold include.
    rewrite (bind_ok _ _ w1 w2 _ Hlist). reflexivity.
  - apply length_fmap.
  - intros i blob Hi. eexists. rewrite list_lookup_fmap, Hi.
    split; [reflexivity|]. repeat split.
Qed.

Lemma api_list_blobs_in_backend_order_witness :
  exists items w2,
    api_list_blobs Sim.sdk Sim.azurite_env account_with_two_blobs
      = (Ok (jsonify (JObj [("blobs", JArr items)])), w2) /\
    length items = 2%nat /\
    (exists members,
       items !! 0%nat = Some (JObj members) /\
       members_get "id" members = Some (JStr "notes.txt") /\
       members_get "name" members = Some (JStr "notes.txt")) /\
    (exists members,
       items !! 1%nat = Some (JObj members) /\
       members_get "id" members = Some (JStr "docs/report.pdf") /\
       members_get "name" members = Some (JStr "report.pdf") /\
       members_get "size" members = Some (JInt 4) /\
       members_get "blob_path" members = Some (JStr "uploads/docs/report.pdf")).
Proof.
  pose (notes := mkBlobProperties "notes.txt" (Some 2) None None (Some ∅)
                   (Some (mkContentSettings (Some "text/plain") None None None))
                   (Some "BlockBlob") None).
  pose (report := mkBlobProperties "docs/report.pdf" (Some 4) None None (Some ∅)
                    (Some (mkContentSettings (Some "application/pdf") None None None))
                    (Some "BlockBlob") None).
  destruct (api_list_blobs_in_backend_order Sim.sdk Sim.azurite_env
              (mkService "devstoreaccount1") account_with_two_blobs eq_refl)
    as (w1 & Hens & Hlist).
  assert (Hw1 : w1 = account_with_two_blobs).
  { assert (Hrun : ensure_container_exists Sim.sdk Sim.azurite_env
                     (container_name_env Sim.azurite_env) account_with_two_blobs
                   = (Ok (get_container_client (mkService "devstoreaccount1")
                            (container_name_env Sim.azurite_env)), account_with_two_blobs))
      by (vm_compute; reflexivity).
    rewrite Hrun in Hens. injection Hens as Hens. symmetry. exact Hens. }
  subst w1.
  destruct (Hlist [notes; report] account_with_two_blobs ltac:(vm_compute; reflexivity))
    as (items & Hrun & Hlen & Hitems).
  exists items, account_with_two_blobs. split; [exact Hrun|]. split; [exact Hlen|]. split.
  - destruct (Hitems 0%nat notes eq_refl) as (members & Hi & Hid & Hname & _).
    exists members. repeat split; assumption.
  - destruct (Hitems 1%nat report eq_refl) as (members & Hi & Hid & Hname & Hsize & Hpath).
    exists members. repeat split; assumption.
Defined.

(** ** Display names *)

Lemma split_pieces_no_sep (sep : ascii) (s : string) :
  Forall (fun p => no_char sep p = true) (PyStr.split sep s).
Proof.
  induction s as [|c r IH]; cbn [PyStr.split].
  - repeat constructor.
  - destruct (decide (c = sep)) as [|Hne].
    + constructor; [reflexivity | exact IH].
    + pose proof (split_nonempty sep r) as Hnil.
      destruct (PyStr.split sep r) as [|f fs]; [contradiction|].
      inversion IH as [|? ? Hf Hfs]; subst.
      constructor; [|exact Hfs]. cbn [no_char].
      rewrite Hf, (bool_decide_eq_false_2 _ Hne). reflexivity.
Qed.

(** The display name of a blob, [name.split("/")[-1]], is the text after
    the last slash: it never contains a slash, a name without one is its
    own display name, and a name in a virtual folder shows without the
    folder. *)
Theorem basename_last_segment (folder file : string) :
  no_char "/" file = true ->
  basename (folder +:+ "/" +:+ file) = file /\
  basename file = file /\
  forall s, no_char "/" (basename s) = true.
Proof.
  intros Hfile. split; [|split].
  - unfold basename. change ("/" +:+ file) with (String "/" file).
    rewrite split_app_sep, (split_no_sep _ _ Hfile), last_snoc. reflexivity.
  - unfold basename. rewrite (split_no_sep _ _ Hfile). reflexivity.
  - intros s. unfold basename. pose proof (split_pieces_no_sep "/" s) as Hall.
    destruct (last (PyStr.split "/" s)) as [p|] eqn:Hlast; [|reflexivity].
    cbn [default from_option id]. rewrite Forall_forall in Hall. apply Hall.
    apply last_Some in Hlast as [l' ->]. set_solver.
Qed.

Lemma basename_last_segment_witness :
  basename ("invoices/2024" +:+ "/" +:+ "report.pdf") = "report.pdf".
Proof. refine (proj1 (basename_last_segment "invoices/2024" "report.pdf" _)). reflexivity. Defined.

(** ** Lifetime of a signed URL *)




(** A lifetime of ten minutes from the environment, and an invalid one. *)
Example make_sas_lifetime_examples :
  (make_sas Sim.sdk {[ "SAS_EXPIRY_MINUTES" := " 1_0 ";
                       "ACCOUNT_KEY" := "a2V5";
                       "AZURE_STORAGE_CONNECTION_STRING" := "UseDevelopmentStorage=true" ]}
     "uploads" "report.pdf" None Sim.empty_account).1
    = Ok "http://127.0.0.1:10000/devstoreaccount1/uploads/report.pdf?se=1700000600000000&sp=r&sr=b&sig=0" /\
  (api_get_blob_url Sim.sdk {[ "SAS_EXPIRY_MINUTES" := "soon";
                               "AZURE_STORAGE_CONNECTION_STRING" := "UseDevelopmentStorage=true" ]}
     "report.pdf" Sim.empty_account).1
    = Ok (jsonify_status
            (error_envelope ("invalid literal for int() with base 10: " +:+ squote +:+ "soon"
                               +:+ squote)) 500).
Proof. vm_compute. auto. Qed.

(** ** Serving a blob *)

Lemma view_content_type_four_step {W} (sdk : Sdk W) (props : BlobProperties)
    (cs : ContentSettings) (blob_name : string) :
  content_settings props = Some cs ->
  view_content_type sdk props blob_name
  = Ok (four_step_content_type (guess_type sdk) props blob_name).
Proof.
  intros Hcs. unfold view_content_type, four_step_content_type, cs_get. rewrite Hcs.
  destruct (default ∅ (metadata props) !! "mime_type") as [[|]|],
    (content_type cs) as [[|]|], (guess_type sdk blob_name) as [[|]|]; reflexivity.
Qed.

(** View reads the properties of the blob and then downloads it, without
    provisioning the container.  When both calls succeed and the resolved
    media type and the last path segment of the name are ASCII text
    without a line break, the chunks of the download are the body, under
    that media type, with the inline disposition naming the last path
    segment, the one-hour cache header, [nosniff], and the decimal size as
    [Content-Length] when the size is not zero.  With a line break in
    either of the two, building the response fails and the answer is 404
    although the blob exists; a download that fails after the properties
    were read is answered 404 as well. *)
Theorem api_view_blob_streams {W} (sdk : Sdk W) (env : Env) (blob_name : string)
    (svc : BlobServiceClient) (props : BlobProperties) (cs : ContentSettings) (w w1 : W) :
  from_connection_string sdk (getenv env "AZURE_STORAGE_CONNECTION_STRING") = Ok svc ->
  let blob_client := get_blob_client svc (container_name_env env) blob_name in
  let content_type := four_step_content_type (guess_type sdk) props blob_name in
  get_blob_properties sdk blob_client w = (Ok props, w1) ->
  content_settings props = Some cs ->
  (forall chunks w2,
     download_blob sdk blob_client w1 = (Ok chunks, w2) ->
     (PyInt.is_ascii content_type = true -> PyInt.is_ascii (basename blob_name) = true ->
      has_newline content_type = false -> has_newline (basename blob_name) = false ->
      exists r,
        api_view_blob sdk env blob_name w = (Ok r, w2) /\
        status r = 200 /\
        body r = StreamBody chunks /\
        mimetype r = content_type /\
        get_header "Content-Disposition" (headers r)
          = Some ("inline; filename=" +:+ dquote +:+ basename blob_name +:+ dquote
                    +:+ "; filename*=UTF-8" +:+ squote +:+ squote
                    +:+ UrlQuote.quote (basename blob_name)) /\
        get_header "Cache-Control" (headers r) = Some "public, max-age=3600" /\
        get_header "X-Content-Type-Options" (headers r) = Some "nosniff" /\
        (forall n, size props = Some n -> n <> 0 ->
                   get_header "Content-Length" (headers r) = Some (pretty n))) /\
     (has_newline content_type = true \/ has_newline (basename blob_name) = true ->
      exists msg,
        api_view_blob sdk env blob_name w
          = (Ok (jsonify_status (error_envelope msg) 404), w2))) /\
  (forall e w2,
     download_blob sdk blob_client w1 = (Raise e, w2) ->
     api_view_blob sdk env blob_name w
       = (Ok (jsonify_status (error_envelope (exn_str e)) 404), w2)).
Proof.
  intros Hsvc blob_client content_type Hprops Hcs.
  pose proof (view_content_type_four_step sdk props cs blob_name Hcs) as Htype.
  fold content_type in Htype.
  assert (Hrun : forall chunks w2,
            download_blob sdk blob_client w1 = (Ok chunks, w2) ->
            api_view_blob_try sdk env blob_name w
            = (view_response props blob_name content_type chunks, w2)).
  { intros chunks w2 Hdown. unfold api_view_blob_try.
    rewrite (bind_ok _ _ w w svc) by (apply bsc_ok, Hsvc).
    fold blob_client. rewrite (bind_ok _ _ w w1 _ Hprops).
    rewrite (bind_ok _ _ w1 w1 content_type) by (unfold lift; rewrite Htype; reflexivity).
    rewrite (bind_ok _ _ w1 w2 _ Hdown). reflexivity. }
  split.
  - intros chunks w2 Hdown. specialize (Hrun chunks w2 Hdown). split.
    + intros _ _ Hct Hname.
      assert (Hresp : view_response props blob_name content_type chunks
                      = Ok (view_headers props blob_name content_type chunks))
        by (rewrite view_response_eq, Hct, Hname; reflexivity).
      exists (view_headers props blob_name content_type chunks).
      split; [unfold api_view_blob; apply try_except_ok; rewrite Hrun, Hresp; reflexivity|].
      pose proof (view_response_fixed_part _ _ _ _ _ Hresp) as (Hst & Hmt & Hbody & Hdisp & Hcache).
      repeat split; try assumption.
      * unfold view_headers. destruct (size props) as [n|]; [destruct (n =? 0)|]; reflexivity.
      * intros n Hn Hnz. eapply view_response_content_length; eassumption.
    + intros Hbad. exists (exn_str header_value_error).
      unfold api_view_blob. rewrite (try_except_raise _ _ w w2 header_value_error); [reflexivity|].
      rewrite Hrun, view_response_eq.
      destruct Hbad as [-> | ->]; rewrite ?orb_true_r; reflexivity.
  - intros e w2 Hdown. unfold api_view_blob.
    rewrite (try_except_raise _ _ w w2 e); [reflexivity|].
    unfold api_view_blob_try.
    rewrite (bind_ok _ _ w w svc) by (apply bsc_ok, Hsvc).
    fold blob_client. rewrite (bind_ok _ _ w w1 _ Hprops).
    rewrite (bind_ok _ _ w1 w1 content_type) by (unfold lift; rewrite Htype; reflexivity).
    apply bind_raise, Hdown.
Qed.

Lemma api_view_blob_streams_witness :
  (exists r,
     api_view_blob Sim.sdk Sim.azurite_env "docs/report.pdf" account_with_two_blobs
       = (Ok r, account_with_two_blobs) /\
     status r = 200 /\
     body r = StreamBody ["%PDF"] /\
     mimetype r = "application/pdf" /\
     get_header "Content-Length" (headers r) = Some "4") /\
  (exists msg,
     api_view_blob Sim.sdk Sim.azurite_env broken_name account_with_broken_name
       = (Ok (jsonify_status (error_envelope msg) 404), account_with_broken_name)).
Proof.
  split.
  - destruct (proj1 (proj1 (api_view_blob_streams Sim.sdk Sim.azurite_env "docs/report.pdf"
                       (mkService "devstoreaccount1")
                       (mkBlobProperties "docs/report.pdf" (Some 4) None None (Some ∅)
                          (Some (mkContentSettings (Some "application/pdf") None None None))
                          (Some "BlockBlob") None)
                       (mkContentSettings (Some "application/pdf") None None None)
                       account_with_two_blobs account_with_two_blobs
                       eq_refl eq_refl eq_refl) ["%PDF"] account_with_two_blobs eq_refl)
                eq_refl eq_refl eq_refl eq_refl)
      as (r & Hrun & Hst & Hbody & Hmt & _ & _ & _ & Hlen).
    exists r. repeat split; try assumption.
    apply (Hlen 4); [reflexivity | discriminate].
  - apply (proj2 (proj1 (api_view_blob_streams Sim.sdk Sim.azurite_env broken_name
                    (mkService "devstoreaccount1")
                    (mkBlobProperties broken_name (Some 1) None None (Some ∅)
                       (Some (mkContentSettings (Some "text/plain") None None None))
                       (Some "BlockBlob") None)
                    (mkContentSettings (Some "text/plain") None None None)
                    account_with_broken_name account_with_broken_name
                    eq_refl eq_refl eq_refl) ["x"] account_with_broken_name eq_refl)).
    right. reflexivity.
Defined.

(** Get-by-name makes one backend call, the properties read, and does not
    provision the container; on success the item is identified by the
    requested name, shows its last path segment as [name], a missing size
    as 0, and the creation time the backend reports. *)
Theorem api_get_blob_item {W} (sdk : Sdk W) (env : Env) (blob_name : string)
    (svc : BlobServiceClient) (props : BlobProperties) (w w1 : W) :
  from_connection_string sdk (getenv env "AZURE_STORAGE_CONNECTION_STRING") = Ok svc ->
  get_blob_properties sdk (get_blob_client svc (container_name_env env) blob_name) w
    = (Ok props, w1) ->
  exists members,
    api_get_blob sdk env blob_name w = (Ok (jsonify (JObj members)), w1) /\
    members_get "id" members = Some (JStr blob_name) /\
    members_get "name" members = Some (JStr (basename blob_name)) /\
    members_get "size" members = Some (JInt (default 0 (size props))) /\
    members_get "blob_path" members
      = Some (JStr (container_name_env env +:+ "/" +:+ blob_name)) /\
    members_get "type" members = Some (JStr (get_type props)) /\
    members_get "creationTime" members = Some (json_opt_str (creation_time props)).
Proof.
  intros Hsvc Hprops. eexists. split.
  - unfold api_get_blob. apply try_except_ok. unfold api_get_blob_try.
    rewrite (bind_ok _ _ w w svc) by (apply bsc_ok, Hsvc).
    rewrite (bind_ok _ _ w w1 _ Hprops). reflexivity.
  - repeat split.
Qed.

Lemma api_get_blob_item_witness :
  let w := (api_upload_blob Sim.sdk Sim.azurite_env
              (Some (mkFile (Some "docs/report.pdf") None "%PDF")) Sim.empty_account).2 in
  exists members,
    api_get_blob Sim.sdk Sim.azurite_env "docs/report.pdf" w = (Ok (jsonify (JObj members)), w) /\
    members_get "name" members = Some (JStr (basename "docs/report.pdf")).
Proof.
  intros w.
  destruct (api_get_blob_item Sim.sdk Sim.azurite_env "docs/report.pdf"
              (mkService "devstoreaccount1")
              (mkBlobProperties "docs/report.pdf" (Some 4) None None (Some ∅)
                 (Some (mkContentSettings (Some "application/pdf") None None None))
                 (Some "BlockBlob") None)
              w w eq_refl eq_refl)
    as (members & Hrun & _ & Hname & _).
  exists members. split; assumption.
Defined.
